(** * Eduspace knowledge hub: classification, search, ingestion and summary

    A shallow embedding of the decision logic of the Eduspace front end
    ([frontend/components/KnowledgeHub.tsx], [frontend/services/api.ts],
    [frontend/services/geminiService.ts], [frontend/services/uploadService.ts])
    and the properties of it that the design document states.

    The React component is modelled as a record of its state variables, the
    [async] handlers as their segments between two [await]s, and the event
    loop as a step function on the component state together with the list of
    requests that are in flight. *)

From Stdlib Require Import String Ascii List ZArith Bool Lia.
From Stdlib Require Import Numbers.DecimalString.
Import ListNotations.
Open Scope string_scope.
Open Scope bool_scope.

(** ** JavaScript values and string primitives *)

Module Js.

(** The values a JSON field of a backend record can hold.  Numbers are the
    integers (record ids and counters); a character of a string is one code
    unit below 256. *)
Inductive value : Type :=
| undefined
| null
| bool (b : Datatypes.bool)
| num (z : Z)
| str (s : string).

(** ToBoolean *)
Definition truthy (v : value) : Datatypes.bool :=
  match v with
  | undefined | null => false
  | bool b => b
  | num z => negb (Z.eqb z 0)
  | str s => negb (String.eqb s "")
  end.

(** [a || b] *)
Definition or (a b : value) : value := if truthy a then a else b.

(** [a === b] *)
Definition seq (a b : value) : Datatypes.bool :=
  match a, b with
  | undefined, undefined | null, null => true
  | bool x, bool y => Bool.eqb x y
  | num x, num y => Z.eqb x y
  | str x, str y => String.eqb x y
  | _, _ => false
  end.

Definition Z_to_string (z : Z) : string :=
  NilZero.string_of_int (Z.to_int z).

(** ToString, as done by a template literal and by [new Error(v)] *)
Definition to_string (v : value) : string :=
  match v with
  | undefined => "undefined"
  | null => "null"
  | bool true => "true"
  | bool false => "false"
  | num z => Z_to_string z
  | str s => s
  end.

(** [s.startsWith(p)] *)
Definition startsWith (s p : string) : Datatypes.bool := String.prefix p s.

(** [s.includes(p)] *)
Fixpoint includes (s p : string) : Datatypes.bool :=
  String.prefix p s ||
  match s with
  | EmptyString => false
  | String _ s' => includes s' p
  end.

(** WhiteSpace and LineTerminator code units below 256 *)
Definition is_space (c : ascii) : Datatypes.bool :=
  let n := nat_of_ascii c in
  ((9 <=? n) && (n <=? 13) || (n =? 32) || (n =? 160))%nat.

Fixpoint trimStart (s : string) : string :=
  match s with
  | EmptyString => EmptyString
  | String c s' => if is_space c then trimStart s' else s
  end.

Fixpoint trimEnd (s : string) : string :=
  match s with
  | EmptyString => EmptyString
  | String c s' =>
      match trimEnd s' with
      | EmptyString => if is_space c then EmptyString else String c EmptyString
      | t => String c t
      end
  end.

(** [s.trim()] *)
Definition trim (s : string) : string := trimEnd (trimStart s).

(** Canonicalize of a case-insensitive, non-unicode regular expression, on
    the letters its pattern uses: an upper-case ASCII letter equals its
    lower-case one, every other code unit only itself. *)
Definition fold_case (c : ascii) : ascii :=
  let n := nat_of_ascii c in
  if ((65 <=? n) && (n <=? 90))%nat then ascii_of_nat (n + 32) else c.

Fixpoint fold_string (s : string) : string :=
  match s with
  | EmptyString => EmptyString
  | String c s' => String (fold_case c) (fold_string s')
  end.

Definition endsWith (s p : string) : Datatypes.bool :=
  let n := String.length s in
  let m := String.length p in
  (m <=? n)%nat && String.eqb (String.substring (n - m) m s) p.

(** [s.match(/\.(jpg|jpeg|png|gif|webp)$/i)], as a truth value *)
Definition match_image_ext (s : string) : Datatypes.bool :=
  let l := fold_string s in
  endsWith l ".jpg" || endsWith l ".jpeg" || endsWith l ".png"
  || endsWith l ".gif" || endsWith l ".webp".

End Js.

(** ** Exceptions and the result of a computation that may throw *)

(** The body of a failure response: [error.response.data]. *)
Record ErrorData : Type := {
  detail : Js.value;
  data_message : Js.value
}.

(** What axios rejects with: [error.response] is present when the server
    answered with a failure status ([Some None] when that answer has no
    body), [error.request] when the request was sent. *)
Record AxiosError : Type := {
  ax_message : string;
  ax_response : option (option ErrorData);
  ax_request : bool
}.

Inductive Exn : Type :=
| Error (message : string)
| TypeError (message : string)
| Axios (e : AxiosError).

(** [err.message] *)
Definition exn_message (e : Exn) : string :=
  match e with
  | Error m => m
  | TypeError m => m
  | Axios a => ax_message a
  end.

Definition Try (A : Type) : Type := (Exn + A)%type.

Definition ret {A} (a : A) : Try A := inr a.
Definition throw {A} (e : Exn) : Try A := inl e.
Definition bind {A B} (m : Try A) (k : A -> Try B) : Try B :=
  match m with
  | inl e => inl e
  | inr a => k a
  end.

Notation "x <- m ;; k" := (bind m (fun x => k))
  (at level 61, m at next level, right associativity).

(** [xs.map(f)] for an [f] that may throw: the first exception aborts. *)
Fixpoint mapT {A B} (f : A -> Try B) (xs : list A) : Try (list B) :=
  match xs with
  | [] => ret []
  | x :: xs' => y <- f x ;; ys <- mapT f xs' ;; ret (y :: ys)
  end.

(** ** Data model *)

(** A record as the backend returns it ([any] in the source): every field
    may be missing ([Js.undefined]), [null] or of an unexpected type. *)
Record RawNote : Type := {
  raw_id : Js.value;
  raw_title : Js.value;
  file_url : Js.value;
  raw_summary : Js.value;
  extracted_content : Js.value;
  created_at : Js.value
}.

(** [type: 'pdf' | 'docx' | 'image' | 'url' | 'other'];  ['other'] is the
    category of a text note. *)
Inductive NoteType : Type := pdf | docx | image | url | other.

Definition NoteType_eqb (a b : NoteType) : bool :=
  match a, b with
  | pdf, pdf | docx, docx | image, image | url, url | other, other => true
  | _, _ => false
  end.

Record Uploader : Type := {
  uploader_name : string;
  avatarUrl : string
}.

(** [interface Note] of the knowledge hub.  Fields copied from an untyped
    record keep the value they had there. *)
Record Note : Type := {
  note_id : string;
  note_title : Js.value;
  note_type : NoteType;
  note_url : Js.value;
  note_tags : list string;
  uploadDate : Js.value;
  rating : Z;
  size : Js.value;
  uploader : Uploader;
  note_content : Js.value;
  note_summary : Js.value
}.

(** ** TypeClassifier and ResourceNormalizer *)

Section Normalizer.

(** [new Date().toISOString()] at the time of the call *)
Variable now : string.

Definition getFileTypeFromUrl (u : string) : NoteType :=
  if negb (Js.truthy (Js.str u)) then other
  else if Js.includes u ".pdf" then pdf
  else if Js.includes u ".docx" || Js.includes u ".doc" then docx
  else if Js.match_image_ext u then image
  else if Js.startsWith u "http" then url
  else other.

(** A method call [v.m(...)] on a value that has no string methods. *)
Definition as_string (what : string) (v : Js.value) : Try string :=
  match v with
  | Js.str s => ret s
  | _ => throw (TypeError (what ++ " is not a function"))
  end.

(** [v.toString()] *)
Definition toString (v : Js.value) : Try string :=
  match v with
  | Js.undefined =>
      throw (TypeError "Cannot read properties of undefined (reading 'toString')")
  | Js.null =>
      throw (TypeError "Cannot read properties of null (reading 'toString')")
  | _ => ret (Js.to_string v)
  end.

(** The first half of [convertBackendNoteToFrontend]: the note type computed
    from [file_url] and [summary]. *)
Definition classify (note : RawNote) : Try NoteType :=
  let fileUrl := Js.or (file_url note) (Js.str "") in
  if negb (Js.truthy fileUrl) || Js.seq fileUrl (Js.str "")
     || Js.seq fileUrl (Js.str "None") || Js.seq fileUrl Js.null
  then
    if Js.truthy (raw_summary note) then ret other else ret other
  else
    u <- as_string "fileUrl.startsWith" fileUrl ;;
    if Js.startsWith u "http://" || Js.startsWith u "https://" then
      if Js.includes u ".pdf" then ret pdf
      else if Js.includes u ".docx" || Js.includes u ".doc" then ret docx
      else if Js.match_image_ext u then ret image
      else if negb (Js.includes u "/uploads/") && negb (Js.includes u "cloudinary")
              && negb (Js.includes u "res.cloudinary.com")
      then ret url
      else ret (getFileTypeFromUrl u)
    else ret (getFileTypeFromUrl u).

Definition convertBackendNoteToFrontend (note : RawNote) : Try Note :=
  let fileUrl := Js.or (file_url note) (Js.str "") in
  noteType <- classify note ;;
  id <- toString (raw_id note) ;;
  ret {| note_id := id;
         note_title := raw_title note;
         note_type := noteType;
         note_url :=
           if Js.truthy fileUrl && negb (Js.seq fileUrl (Js.str "None"))
              && negb (Js.seq fileUrl Js.null)
           then fileUrl
           else if NoteType_eqb noteType url && Js.truthy (raw_summary note)
                then raw_summary note
                else if NoteType_eqb noteType other then Js.str "#" else Js.str "#";
         note_tags := [];
         uploadDate := Js.or (created_at note) (Js.str now);
         rating := 0;
         size := Js.str "";
         uploader := {| uploader_name := "You"; avatarUrl := "" |};
         note_content :=
           Js.or (Js.or (extracted_content note) (raw_summary note)) (Js.str "");
         note_summary := Js.or (raw_summary note) (Js.str "") |}.

(** [backendNotes.map((note) => convertBackendNoteToFrontend(note))] *)
Definition normalize (records : list RawNote) : Try (list Note) :=
  mapT convertBackendNoteToFrontend records.

End Normalizer.

(** ** Service layer: what each API function makes of a settled request *)

Inductive Settled (A : Type) : Type :=
| Fulfilled (data : A)
| Rejected (e : AxiosError).
Arguments Fulfilled {A} data.
Arguments Rejected {A} e.

(** The handler shared by [getNotes], [searchResources] and
    [generateSummary]:
    [if (error.response) throw new Error(error.response.data.detail || fallback); throw error] *)
Definition api_catch {A} (fallback : string) (e : AxiosError) : Try A :=
  match ax_response e with
  | Some (Some d) => throw (Error (Js.to_string (Js.or (detail d) (Js.str fallback))))
  | Some None => throw (TypeError "Cannot read properties of undefined (reading 'detail')")
  | None => throw (Axios e)
  end.

Definition getNotes (r : Settled (list RawNote)) : Try (list RawNote) :=
  match r with
  | Fulfilled data => ret data
  | Rejected e => api_catch "Failed to fetch notes" e
  end.

Definition searchResources (r : Settled (list RawNote)) : Try (list RawNote) :=
  match r with
  | Fulfilled data => ret data
  | Rejected e => api_catch "Failed to search resources" e
  end.

Definition generateSummary (r : Settled string) : Try string :=
  match r with
  | Fulfilled data => ret data
  | Rejected e => api_catch "Failed to generate summary" e
  end.

(** [geminiService.ts] *)
Definition summarizeText (r : Settled string) : Try string :=
  match generateSummary r with
  | inr result => ret result
  | inl _ => throw (Error "Failed to get summary. Please try again.")
  end.

(** [interface UploadResponse], and the [content] the component reads. *)
Record UploadResponse : Type := {
  resp_id : string;
  resp_url : Js.value;
  resp_title : Js.value;
  resp_type : string;
  resp_tags : option (list string);
  resp_size : Js.value;
  resp_uploadDate : Js.value;
  resp_message : Js.value;
  resp_content : Js.value
}.

(** [uploadService.ts] *)
Definition uploadFile (r : Settled UploadResponse) : Try UploadResponse :=
  match r with
  | Fulfilled data => ret data
  | Rejected e =>
      match ax_response e with
      | Some d =>
          let errorMessage :=
            Js.or (Js.or (match d with Some d => detail d | None => Js.undefined end)
                         (match d with Some d => data_message d | None => Js.undefined end))
                  (Js.str "Upload failed") in
          throw (Error (Js.to_string errorMessage))
      | None =>
          if ax_request e
          then throw (Error "Network error: Could not connect to server. Please make sure the backend is running on http://localhost:8000")
          else throw (Error ("Upload failed: " ++ ax_message e))
      end
  end.

(** ** The knowledge hub component *)

Record File : Type := {
  file_name : string;
  file_size : Z;
  file_type : string
}.

Inductive DraftType : Type := TEXT | LINK | FILE.

Definition DraftType_eqb (a b : DraftType) : bool :=
  match a, b with
  | TEXT, TEXT | LINK, LINK | FILE, FILE => true
  | _, _ => false
  end.

Definition DraftType_name (t : DraftType) : string :=
  match t with
  | TEXT => "TEXT"
  | LINK => "LINK"
  | FILE => "FILE"
  end.

(** The state variable [newNote]. *)
Record Draft : Type := {
  d_title : string;
  d_content : string;
  d_type : DraftType;
  d_subject : string;
  d_tags : list string;
  d_file : option File;
  is_public : bool
}.

Definition empty_draft : Draft :=
  {| d_title := ""; d_content := ""; d_type := TEXT; d_subject := "";
     d_tags := []; d_file := None; is_public := false |}.

Inductive FormValue : Type :=
| form_text (s : string)
| form_file (f : File).

Definition FormData : Type := list (string * FormValue).

Inductive Toast : Type :=
| toast_error (m : string)
| toast_success (m : string).

(** The state variables of [KnowledgeHub], then what it has shown and logged
    so far, newest first: the calls of [toast] and the first argument of the
    component's calls of [console.error].  [shownFor] is a ghost variable:
    the id of the note whose request produced the current [summary] or
    [summaryError], [None] while both hold their reset values. *)
Record Hub : Type := mkHub {
  selectedNote : option Note;
  notes : list Note;
  isLoading : bool;
  isSummaryModalOpen : bool;
  summary : string;
  isGeneratingSummary : bool;
  summaryError : option string;
  searchQuery : string;
  isSearching : bool;
  isUploadModalOpen : bool;
  isSubmitting : bool;
  newNote : Draft;
  toasts : list Toast;
  console : list string;
  shownFor : option string
}.

Definition setSelectedNote (v : option Note) (h : Hub) : Hub :=
  mkHub v (notes h) (isLoading h) (isSummaryModalOpen h) (summary h) (isGeneratingSummary h) (summaryError h) (searchQuery h) (isSearching h) (isUploadModalOpen h) (isSubmitting h) (newNote h) (toasts h) (console h) (shownFor h).

Definition setNotes (v : list Note) (h : Hub) : Hub :=
  mkHub (selectedNote h) v (isLoading h) (isSummaryModalOpen h) (summary h) (isGeneratingSummary h) (summaryError h) (searchQuery h) (isSearching h) (isUploadModalOpen h) (isSubmitting h) (newNote h) (toasts h) (console h) (shownFor h).

Definition setIsLoading (v : bool) (h : Hub) : Hub :=
  mkHub (selectedNote h) (notes h) v (isSummaryModalOpen h) (summary h) (isGeneratingSummary h) (summaryError h) (searchQuery h) (isSearching h) (isUploadModalOpen h) (isSubmitting h) (newNote h) (toasts h) (console h) (shownFor h).

Definition setIsSummaryModalOpen (v : bool) (h : Hub) : Hub :=
  mkHub (selectedNote h) (notes h) (isLoading h) v (summary h) (isGeneratingSummary h) (summaryError h) (searchQuery h) (isSearching h) (isUploadModalOpen h) (isSubmitting h) (newNote h) (toasts h) (console h) (shownFor h).

Definition setIsGeneratingSummary (v : bool) (h : Hub) : Hub :=
  mkHub (selectedNote h) (notes h) (isLoading h) (isSummaryModalOpen h) (summary h) v (summaryError h) (searchQuery h) (isSearching h) (isUploadModalOpen h) (isSubmitting h) (newNote h) (toasts h) (console h) (shownFor h).

Definition setSearchQuery (v : string) (h : Hub) : Hub :=
  mkHub (selectedNote h) (notes h) (isLoading h) (isSummaryModalOpen h) (summary h) (isGeneratingSummary h) (summaryError h) v (isSearching h) (isUploadModalOpen h) (isSubmitting h) (newNote h) (toasts h) (console h) (shownFor h).

Definition setIsSearching (v : bool) (h : Hub) : Hub :=
  mkHub (selectedNote h) (notes h) (isLoading h) (isSummaryModalOpen h) (summary h) (isGeneratingSummary h) (summaryError h) (searchQuery h) v (isUploadModalOpen h) (isSubmitting h) (newNote h) (toasts h) (console h) (shownFor h).

Definition setIsUploadModalOpen (v : bool) (h : Hub) : Hub :=
  mkHub (selectedNote h) (notes h) (isLoading h) (isSummaryModalOpen h) (summary h) (isGeneratingSummary h) (summaryError h) (searchQuery h) (isSearching h) v (isSubmitting h) (newNote h) (toasts h) (console h) (shownFor h).

Definition setIsSubmitting (v : bool) (h : Hub) : Hub :=
  mkHub (selectedNote h) (notes h) (isLoading h) (isSummaryModalOpen h) (summary h) (isGeneratingSummary h) (summaryError h) (searchQuery h) (isSearching h) (isUploadModalOpen h) v (newNote h) (toasts h) (console h) (shownFor h).

Definition setNewNote (v : Draft) (h : Hub) : Hub :=
  mkHub (selectedNote h) (notes h) (isLoading h) (isSummaryModalOpen h) (summary h) (isGeneratingSummary h) (summaryError h) (searchQuery h) (isSearching h) (isUploadModalOpen h) (isSubmitting h) v (toasts h) (console h) (shownFor h).

(** [setSummary(v)]; [from] is the note the value stems from. *)
Definition setSummary (from : option string) (v : string) (h : Hub) : Hub :=
  mkHub (selectedNote h) (notes h) (isLoading h) (isSummaryModalOpen h) v (isGeneratingSummary h) (summaryError h) (searchQuery h) (isSearching h) (isUploadModalOpen h) (isSubmitting h) (newNote h) (toasts h) (console h) from.

(** [setSummaryError(v)]; [from] is the note the value stems from. *)
Definition setSummaryError (from : option string) (v : option string) (h : Hub) : Hub :=
  mkHub (selectedNote h) (notes h) (isLoading h) (isSummaryModalOpen h) (summary h) (isGeneratingSummary h) v (searchQuery h) (isSearching h) (isUploadModalOpen h) (isSubmitting h) (newNote h) (toasts h) (console h) from.

(** [toast.error(m)] and [toast.success(m)] *)
Definition toast (t : Toast) (h : Hub) : Hub :=
  mkHub (selectedNote h) (notes h) (isLoading h) (isSummaryModalOpen h) (summary h) (isGeneratingSummary h) (summaryError h) (searchQuery h) (isSearching h) (isUploadModalOpen h) (isSubmitting h) (newNote h) (t :: toasts h) (console h) (shownFor h).

(** [console.error(label, ...)] *)
Definition console_error (label : string) (h : Hub) : Hub :=
  mkHub (selectedNote h) (notes h) (isLoading h) (isSummaryModalOpen h) (summary h) (isGeneratingSummary h) (summaryError h) (searchQuery h) (isSearching h) (isUploadModalOpen h) (isSubmitting h) (newNote h) (toasts h) (label :: console h) (shownFor h).

Notation "h |> f" := (f h) (at level 62, left associativity, only parsing).

Definition initial_hub : Hub :=
  {| selectedNote := None; notes := []; isLoading := true;
     isSummaryModalOpen := false; summary := ""; isGeneratingSummary := false;
     summaryError := None; searchQuery := ""; isSearching := false;
     isUploadModalOpen := false; isSubmitting := false; newNote := empty_draft;
     toasts := []; console := []; shownFor := None |}.

(** A handler suspended at an [await], with the request it waits for and the
    variables its continuation still uses. *)
Inductive Task : Type :=
| fetchNotes_await
| handleSearch_await_getNotes
| handleSearch_await_searchResources (query : string)
| handleGenerateSummary_await (note : Note) (text : Js.value)
| handleSubmit_await_uploadFile (formData : FormData)
| handleSubmit_await_getNotes (response : UploadResponse).

(** *** fetchNotes (the effect run on mount) *)

Definition fetchNotes_start (h : Hub) : Hub * Task :=
  (h |> setIsLoading true, fetchNotes_await).

Definition fetchNotes_resume (now : string) (r : Settled (list RawNote)) (h : Hub) : Hub :=
  match backendNotes <- getNotes r ;; normalize now backendNotes with
  | inr formattedNotes => h |> setNotes formattedNotes
  | inl _ => h |> console_error "Error fetching notes:"
               |> toast (toast_error "Failed to load notes")
  end |> setIsLoading false.

(** *** handleSearch *)

Definition handleSearch_start (query : string) (h : Hub) : Hub * Task :=
  let h := h |> setSearchQuery query in
  if (String.length (Js.trim query) <? 2)%nat
  then (h, handleSearch_await_getNotes)
  else (h |> setIsSearching true, handleSearch_await_searchResources query).

(** The short-query branch after [await getNotes()]. *)
Definition handleSearch_resume_getNotes
    (now : string) (r : Settled (list RawNote)) (h : Hub) : Hub :=
  match backendNotes <- getNotes r ;; normalize now backendNotes with
  | inr formattedNotes => h |> setNotes formattedNotes |> setIsSearching false
  | inl _ => h |> console_error "Error fetching notes:"
  end.

(** The filtered branch after [await searchResources(query)]. *)
Definition handleSearch_resume_searchResources
    (now : string) (r : Settled (list RawNote)) (h : Hub) : Hub :=
  match results <- searchResources r ;; normalize now results with
  | inr formattedNotes => h |> setNotes formattedNotes
  | inl _ => h |> console_error "Error searching notes:"
               |> toast (toast_error "Search failed")
  end |> setIsSearching false.

(** *** handleGenerateSummary and the modal's onClose *)

(** The request carries [parseInt(note.id)] next to [text]; the task keeps
    the note itself. *)
Definition handleGenerateSummary_start (note : Note) (h : Hub) : Hub * Task :=
  let h := h |> setSelectedNote (Some note)
             |> setIsSummaryModalOpen true
             |> setIsGeneratingSummary true
             |> setSummaryError None None
             |> setSummary None "" in
  let text :=
    Js.or (Js.or (note_content note) (note_summary note))
          (Js.str ("Summarize the document: " ++ Js.to_string (note_title note))) in
  (h, handleGenerateSummary_await note text).

Definition handleGenerateSummary_resume
    (note : Note) (r : Settled string) (h : Hub) : Hub :=
  match summarizeText r with
  | inr result => h |> setSummary (Some (note_id note)) result
  | inl err =>
      h |> setSummaryError (Some (note_id note))
             (Some (Js.to_string
                      (Js.or (Js.str (exn_message err))
                             (Js.str "Failed to generate summary. Please try again."))))
        |> console_error (exn_message err)
  end |> setIsGeneratingSummary false.

Definition summaryModal_onClose (h : Hub) : Hub :=
  h |> setIsSummaryModalOpen false
    |> setSelectedNote None
    |> setSummary None ""
    |> setSummaryError None None.

(** *** handleFileUpload *)

(** [name.split('.')[0]] *)
Fixpoint before_dot (name : string) : string :=
  match name with
  | EmptyString => EmptyString
  | String c name' => if Ascii.eqb c "."%char then EmptyString
                      else String c (before_dot name')
  end.

(** The change handler of the file input, for a chosen [file]. *)
Definition handleFileUpload (file : File) (h : Hub) : Hub :=
  if (10 * 1024 * 1024 <? file_size file)%Z then
    h |> toast (toast_error "File size should be less than 10MB")
  else
    let prev := newNote h in
    h |> setNewNote
           {| d_title := Js.to_string (Js.or (Js.str (d_title prev))
                                             (Js.str (before_dot (file_name file))));
              d_content := d_content prev;
              d_type := d_type prev;
              d_subject := d_subject prev;
              d_tags := d_tags prev;
              d_file := Some file;
              is_public := is_public prev |}.

(** *** handleSubmit *)

Definition buildFormData (newNote : Draft) : FormData :=
  ([("title", form_text (Js.trim (d_title newNote)));
   ("type", form_text (DraftType_name (d_type newNote)));
   ("subject", form_text (Js.to_string (Js.or (Js.str (d_subject newNote)) (Js.str ""))));
   ("is_public", form_text (Js.to_string (Js.bool (is_public newNote))))]
  ++ (if (0 <? List.length (d_tags newNote))%nat
      then [("tags", form_text (String.concat "," (d_tags newNote)))]
      else [])
  ++ (match d_type newNote, d_file newNote with
      | FILE, Some f => [("file", form_file f)]
      | _, _ => []
      end)
  ++ (if DraftType_eqb (d_type newNote) TEXT || DraftType_eqb (d_type newNote) LINK
      then
        if Js.truthy (Js.str (d_content newNote))
           && Js.truthy (Js.str (Js.trim (d_content newNote)))
        then [("content", form_text (Js.trim (d_content newNote)))]
        else []
      else
        if DraftType_eqb (d_type newNote) FILE
           && Js.truthy (Js.str (d_content newNote))
           && Js.truthy (Js.str (Js.trim (d_content newNote)))
        then [("content", form_text (Js.trim (d_content newNote)))]
        else []))%list.

(** The validation of [handleSubmit] and, when it passes, everything up to
    [await uploadFile(formData)]. *)
Definition handleSubmit_start (h : Hub) : Hub * option Task :=
  let newNote := newNote h in
  if negb (Js.truthy (Js.str (Js.trim (d_title newNote)))) then
    (h |> console_error "Validation failed: No title"
       |> toast (toast_error "Please enter a title"), None)
  else if DraftType_eqb (d_type newNote) LINK
          && (negb (Js.truthy (Js.str (d_content newNote)))
              || negb (Js.startsWith (Js.trim (d_content newNote)) "http")) then
    (h |> console_error "Validation failed: Invalid URL for LINK type"
       |> toast (toast_error "Please enter a valid URL"), None)
  else if DraftType_eqb (d_type newNote) TEXT
          && negb (Js.truthy (Js.str (Js.trim (d_content newNote)))) then
    (h |> console_error "Validation failed: No content for TEXT type"
       |> toast (toast_error "Please enter text content"), None)
  else if DraftType_eqb (d_type newNote) FILE
          && match d_file newNote with None => true | Some _ => false end then
    (h |> console_error "Validation failed: No file for FILE type"
       |> toast (toast_error "Please upload a file"), None)
  else
    (h |> setIsSubmitting true,
     Some (handleSubmit_await_uploadFile (buildFormData newNote))).

(** The provisional note built from the upload response. *)
Definition uploadedNote (now : string) (response : UploadResponse) : Try Note :=
  type <- (if String.eqb (resp_type response) "text" then ret other
           else if String.eqb (resp_type response) "link" then ret url
           else u <- as_string "url.includes" (Js.or (resp_url response) (Js.str "")) ;;
                ret (getFileTypeFromUrl u)) ;;
  ret {| note_id := resp_id response;
         note_title := resp_title response;
         note_type := type;
         note_url := Js.or (resp_url response) (Js.str "#");
         note_tags := match resp_tags response with Some t => t | None => [] end;
         uploadDate := Js.or (resp_uploadDate response) (Js.str now);
         rating := 0;
         size := resp_size response;
         uploader := {| uploader_name := "You"; avatarUrl := "" |};
         note_content := Js.or (resp_content response) (Js.str "");
         note_summary := Js.or (resp_content response) (Js.str "") |}.

(** The outer [catch] and [finally] of [handleSubmit]. *)
Definition handleSubmit_catch (error : Exn) (h : Hub) : Hub :=
  h |> console_error "=== UPLOAD ERROR IN COMPONENT ==="
    |> console_error "Error:"
    |> console_error "Error message:"
    |> console_error "Error stack:"
    |> toast (toast_error
                (Js.to_string
                   (Js.or (Js.str (exn_message error))
                          (Js.str "Failed to upload note. Please try again."))))
    |> setIsSubmitting false.

(** After [await uploadFile(formData)]: the optimistic insert, then the
    refresh request. *)
Definition handleSubmit_resume_uploadFile
    (now : string) (r : Settled UploadResponse) (h : Hub) : Hub * option Task :=
  match response <- uploadFile r ;;
        n <- uploadedNote now response ;; ret (response, n) with
  | inr (response, n) =>
      (h |> setNotes (n :: notes h), Some (handleSubmit_await_getNotes response))
  | inl error => (handleSubmit_catch error h, None)
  end.

(** After the refresh's [await getNotes()]. *)
Definition handleSubmit_resume_getNotes
    (now : string) (response : UploadResponse) (r : Settled (list RawNote))
    (h : Hub) : Hub :=
  match backendNotes <- getNotes r ;; normalize now backendNotes with
  | inr formattedNotes => h |> setNotes formattedNotes
  | inl _ => h |> console_error "Error refreshing notes:"
  end
  |> setIsUploadModalOpen false
  |> setNewNote empty_draft
  |> toast (toast_success
              (Js.to_string
                 (Js.or (resp_message response) (Js.str "Note saved successfully!"))))
  |> setIsSubmitting false.

(** ** The event loop *)

(** The component together with the handlers suspended at an [await], oldest
    first. *)
Record System : Type := {
  hub : Hub;
  inflight : list Task
}.

Definition initial : System := {| hub := initial_hub; inflight := [] |}.

(** The answer of the transport layer to one request. *)
Inductive Reply : Type :=
| notes_reply (r : Settled (list RawNote))
| summary_reply (r : Settled string)
| upload_reply (r : Settled UploadResponse).

(** What the event loop can run next: a handler called by the user interface
    up to its first [await], or the continuation of the [k]-th suspended
    handler once its request has settled (at clock reading [now]).
    [ViewContent] and [CloseDetail] are the two inline handlers that call
    [setSelectedNote], [OpenUploadModal] and [CloseUploadModal] those that
    call [setIsUploadModalOpen], and [EditDraft d] stands for any of the
    form's inline [setNewNote] calls, [d] being the new draft. *)
Inductive Event : Type :=
| Mount
| Search (query : string)
| GenerateSummary (note : Note)
| CloseSummary
| ViewContent (note : Note)
| CloseDetail
| OpenUploadModal
| CloseUploadModal
| EditDraft (d : Draft)
| SelectFile (file : File)
| Submit
| Settle (k : nat) (now : string) (r : Reply).

Fixpoint remove_nth {A} (k : nat) (l : list A) : list A :=
  match l, k with
  | [], _ => []
  | _ :: l', O => l'
  | x :: l', S k' => x :: remove_nth k' l'
  end.

Definition spawn (s : System) (r : Hub * Task) : System :=
  {| hub := fst r; inflight := (inflight s ++ [snd r])%list |}.

Definition spawn_opt (s : System) (r : Hub * option Task) : System :=
  {| hub := fst r;
     inflight := match snd r with
                 | Some t => (inflight s ++ [t])%list
                 | None => inflight s
                 end |}.

(** The continuation of task [t] on reply [r]; [None] when [r] is not an
    answer to the request [t] waits for. *)
Definition resume (now : string) (t : Task) (r : Reply) (h : Hub)
  : option (Hub * option Task) :=
  match t, r with
  | fetchNotes_await, notes_reply r => Some (fetchNotes_resume now r h, None)
  | handleSearch_await_getNotes, notes_reply r =>
      Some (handleSearch_resume_getNotes now r h, None)
  | handleSearch_await_searchResources _, notes_reply r =>
      Some (handleSearch_resume_searchResources now r h, None)
  | handleGenerateSummary_await note _, summary_reply r =>
      Some (handleGenerateSummary_resume note r h, None)
  | handleSubmit_await_uploadFile _, upload_reply r =>
      Some (handleSubmit_resume_uploadFile now r h)
  | handleSubmit_await_getNotes response, notes_reply r =>
      Some (handleSubmit_resume_getNotes now response r h, None)
  | _, _ => None
  end.

Definition step (ev : Event) (s : System) : option System :=
  match ev with
  | Mount => Some (spawn s (fetchNotes_start (hub s)))
  | Search query => Some (spawn s (handleSearch_start query (hub s)))
  | GenerateSummary note => Some (spawn s (handleGenerateSummary_start note (hub s)))
  | CloseSummary =>
      Some {| hub := summaryModal_onClose (hub s); inflight := inflight s |}
  | ViewContent note =>
      Some {| hub := setSelectedNote (Some note) (hub s); inflight := inflight s |}
  | CloseDetail => Some {| hub := setSelectedNote None (hub s); inflight := inflight s |}
  | OpenUploadModal =>
      Some {| hub := setIsUploadModalOpen true (hub s); inflight := inflight s |}
  | CloseUploadModal =>
      Some {| hub := setIsUploadModalOpen false (hub s); inflight := inflight s |}
  | EditDraft d => Some {| hub := setNewNote d (hub s); inflight := inflight s |}
  | SelectFile file =>
      Some {| hub := handleFileUpload file (hub s); inflight := inflight s |}
  | Submit => Some (spawn_opt s (handleSubmit_start (hub s)))
  | Settle k now r =>
      match nth_error (inflight s) k with
      | Some t =>
          match resume now t r (hub s) with
          | Some res =>
              Some (spawn_opt {| hub := hub s; inflight := remove_nth k (inflight s) |} res)
          | None => None
          end
      | None => None
      end
  end.

Fixpoint run (evs : list Event) (s : System) : option System :=
  match evs with
  | [] => Some s
  | ev :: evs' =>
      match step ev s with
      | Some s' => run evs' s'
      | None => None
      end
  end.

(** What the rendered page lets through: the AI Summary button is disabled
    while [isGeneratingSummary], the submit button while [isSubmitting].  No
    other control of the component is ever disabled. *)
Definition enabled (ev : Event) (s : System) : bool :=
  match ev with
  | GenerateSummary _ => negb (isGeneratingSummary (hub s))
  | Submit => negb (isSubmitting (hub s))
  | _ => true
  end.

Fixpoint run_enabled (evs : list Event) (s : System) : option System :=
  match evs with
  | [] => Some s
  | ev :: evs' =>
      if enabled ev s then
        match step ev s with
        | Some s' => run_enabled evs' s'
        | None => None
        end
      else None
  end.

(** What the summary modal shows. *)
Inductive ModalBody : Type :=
| spinner
| error_text (e : string)
| summary_text (s : string).

Definition summaryModal (h : Hub) : option (Js.value * ModalBody) :=
  match selectedNote h with
  | Some n =>
      if isSummaryModalOpen h then
        Some (note_title n,
              if isGeneratingSummary h then spinner
              else match summaryError h with
                   | Some e => if Js.truthy (Js.str e) then error_text e
                               else summary_text (summary h)
                   | None => summary_text (summary h)
                   end)
      else None
  | None => None
  end.

(** The condition under which a card of the notes grid offers the
    "Open Link" / "Open File" button: the note has a location to open. *)
Definition openable (n : Note) : bool :=
  (NoteType_eqb (note_type n) url || NoteType_eqb (note_type n) pdf
   || NoteType_eqb (note_type n) docx || NoteType_eqb (note_type n) image)
  && Js.truthy (note_url n) && negb (Js.seq (note_url n) (Js.str "#")).

(** ** Records and notes used as concrete inputs *)

Definition record_7 : RawNote :=
  {| raw_id := Js.str "7"; raw_title := Js.str "Notes"; file_url := Js.null;
     raw_summary := Js.str "Key ideas on recursion";
     extracted_content := Js.undefined; created_at := Js.undefined |}.

Definition record_hosted : RawNote :=
  {| raw_id := Js.num 9; raw_title := Js.str "Lecture";
     file_url := Js.str "https://res.cloudinary.com/x/upload/v1/file";
     raw_summary := Js.undefined; extracted_content := Js.undefined;
     created_at := Js.str "2025-01-01" |}.

Definition record_no_id : RawNote :=
  {| raw_id := Js.undefined; raw_title := Js.str "Notes"; file_url := Js.null;
     raw_summary := Js.undefined; extracted_content := Js.undefined;
     created_at := Js.undefined |}.

Definition record_A : RawNote :=
  {| raw_id := Js.num 1; raw_title := Js.str "A";
     file_url := Js.str "https://x.org/a.pdf"; raw_summary := Js.undefined;
     extracted_content := Js.undefined; created_at := Js.str "2025-01-01" |}.

Definition record_B : RawNote :=
  {| raw_id := Js.num 2; raw_title := Js.str "B"; file_url := Js.null;
     raw_summary := Js.str "bb"; extracted_content := Js.undefined;
     created_at := Js.str "2025-01-02" |}.

(** ** Vocabulary of the properties and further concrete inputs *)

Definition absent (v : Js.value) : Prop :=
  v = Js.undefined \/ v = Js.null \/ v = Js.str "".

(** The record has an id that [toString] can be called on. *)
Definition has_id (note : RawNote) : bool :=
  match raw_id note with
  | Js.undefined | Js.null => false
  | _ => true
  end.

(** The record's [file_url] is a string or counts as absent. *)
Definition file_url_usable (note : RawNote) : bool :=
  match file_url note with
  | Js.str _ => true
  | v => negb (Js.truthy v)
  end.

(** The record carries no url, summary or extracted text at all. *)
Definition bare (note : RawNote) : bool :=
  negb (Js.truthy (file_url note)) && negb (Js.truthy (raw_summary note))
  && negb (Js.truthy (extracted_content note)).

(** What normalization guarantees about the note made from a record. *)
Definition normalized_from (note : RawNote) (n : Note) : Prop :=
  note_id n = Js.to_string (raw_id note)
  /\ note_title n = raw_title note
  /\ (bare note = true ->
      note_type n = other /\ note_url n = Js.str "#"
      /\ note_content n = Js.str "").

Definition record_no_title : RawNote :=
  {| raw_id := Js.num 3; raw_title := Js.undefined; file_url := Js.undefined;
     raw_summary := Js.undefined; extracted_content := Js.undefined;
     created_at := Js.undefined |}.

(** A failure response of the summary endpoint that carries a detail. *)
Definition rate_limited : AxiosError :=
  {| ax_message := "Request failed with status code 429";
     ax_response := Some (Some {| detail := Js.str "Rate limit exceeded";
                                   data_message := Js.undefined |});
     ax_request := true |}.

Definition note_A : Note :=
  {| note_id := "1"; note_title := Js.str "A"; note_type := other;
     note_url := Js.str "#"; note_tags := []; uploadDate := Js.str "2025-01-01";
     rating := 0; size := Js.str "";
     uploader := {| uploader_name := "You"; avatarUrl := "" |};
     note_content := Js.str "text of A"; note_summary := Js.str "" |}.

Definition note_B : Note :=
  {| note_id := "2"; note_title := Js.str "B"; note_type := other;
     note_url := Js.str "#"; note_tags := []; uploadDate := Js.str "2025-01-02";
     rating := 0; size := Js.str "";
     uploader := {| uploader_name := "You"; avatarUrl := "" |};
     note_content := Js.str "text of B"; note_summary := Js.str "" |}.

Definition unreachable : AxiosError :=
  {| ax_message := "Network Error"; ax_response := None; ax_request := true |}.

(** The system right after the user typed the one-letter query "a". *)
Definition after_short_query : System :=
  {| hub := setSearchQuery "a" initial_hub; inflight := [handleSearch_await_getNotes] |}.

(** The draft's link is missing or, once trimmed, does not start with
    "http": the condition tested by the validation. *)
Definition invalid_link (d : Draft) : Prop :=
  d_content d = "" \/ Js.startsWith (Js.trim (d_content d)) "http" = false.

Definition draft_not_a_url : Draft :=
  {| d_title := "Recursion"; d_content := "not-a-url"; d_type := LINK;
     d_subject := ""; d_tags := []; d_file := None; is_public := false |}.

Definition draft_padded_link : Draft :=
  {| d_title := "Recursion"; d_content := " https://example.com"; d_type := LINK;
     d_subject := ""; d_tags := []; d_file := None; is_public := false |}.

Definition draft_untitled_link : Draft :=
  {| d_title := "  "; d_content := "not-a-url"; d_type := LINK;
     d_subject := ""; d_tags := []; d_file := None; is_public := false |}.

Definition editing (d : Draft) : System :=
  {| hub := setNewNote d initial_hub; inflight := [] |}.

Definition draft_text : Draft :=
  {| d_title := "Recursion"; d_content := "Key ideas on recursion"; d_type := TEXT;
     d_subject := "B.Tech CSE"; d_tags := ["Algorithms"]; d_file := None;
     is_public := false |}.

Definition response_text : UploadResponse :=
  {| resp_id := "42"; resp_url := Js.undefined; resp_title := Js.str "Recursion";
     resp_type := "text"; resp_tags := Some ["Algorithms"]; resp_size := Js.str "";
     resp_uploadDate := Js.undefined; resp_message := Js.str "Saved";
     resp_content := Js.undefined |}.

(** The system after the form was filled with [draft_text] and submitted. *)
Definition submitting : System :=
  {| hub := setIsSubmitting true (setNewNote draft_text initial_hub);
     inflight := [handleSubmit_await_uploadFile (buildFormData draft_text)] |}.

Definition is_search_task (query : string) (t : Task) : Prop :=
  t = handleSearch_await_getNotes \/ t = handleSearch_await_searchResources query.

Definition is_summary_task (t : Task) : bool :=
  match t with
  | handleGenerateSummary_await _ _ => true
  | _ => false
  end.

Definition count_summary (l : list Task) : nat :=
  List.length (filter is_summary_task l).

(** ** Further vocabulary: strings, form edits and busy flags *)

(** The string consists of white space only. *)
Fixpoint all_space (s : string) : bool :=
  match s with
  | EmptyString => true
  | String c s' => Js.is_space c && all_space s'
  end.

(** The record's [file_url] counts as no url at all: a falsy value or the
    literal "None". *)
Definition no_file_url (note : RawNote) : Prop :=
  Js.truthy (file_url note) = false \/ file_url note = Js.str "None".

(** The draft passes the checks of [handleSubmit]: a title that is not
    blank, and the content or file its type asks for. *)
Definition accepted (d : Draft) : Prop :=
  Js.trim (d_title d) <> ""
  /\ (d_type d = LINK ->
      d_content d <> "" /\ Js.startsWith (Js.trim (d_content d)) "http" = true)
  /\ (d_type d = TEXT -> Js.trim (d_content d) <> "")
  /\ (d_type d = FILE -> d_file d <> None).

(** [formData.has(key)] *)
Definition has_key (key : string) (fd : FormData) : bool :=
  existsb (fun entry => String.eqb (fst entry) key) fd.

(** The tag buttons of the form:
    [prev.tags.includes(tag) ? prev.tags.filter(t => t !== tag) : [...prev.tags, tag]] *)
Definition toggleTag (tag : string) (tags : list string) : list string :=
  if existsb (String.eqb tag) tags
  then filter (fun t => negb (String.eqb t tag)) tags
  else (tags ++ [tag])%list.

(** The controls of the upload form, each with the [setNewNote] call of its
    inline handler. *)
Inductive FormEdit : Type :=
| pick_type (type : DraftType)
| type_title (value : string)
| type_content (value : string)
| choose_file (file : File)
| pick_subject (value : string)
| click_tag (tag : string)
| check_public (checked : bool).

Definition form_edit (e : FormEdit) (h : Hub) : Hub :=
  let prev := newNote h in
  match e with
  | pick_type type =>
      h |> setNewNote
             {| d_title := d_title prev;
                d_content := if DraftType_eqb type FILE then "" else d_content prev;
                d_type := type;
                d_subject := d_subject prev;
                d_tags := d_tags prev;
                d_file := if negb (DraftType_eqb type FILE) then None else d_file prev;
                is_public := is_public prev |}
  | type_title value =>
      h |> setNewNote
             {| d_title := value; d_content := d_content prev; d_type := d_type prev;
                d_subject := d_subject prev; d_tags := d_tags prev;
                d_file := d_file prev; is_public := is_public prev |}
  | type_content value =>
      h |> setNewNote
             {| d_title := d_title prev; d_content := value; d_type := d_type prev;
                d_subject := d_subject prev; d_tags := d_tags prev;
                d_file := d_file prev; is_public := is_public prev |}
  | choose_file file => handleFileUpload file h
  | pick_subject value =>
      h |> setNewNote
             {| d_title := d_title prev; d_content := d_content prev;
                d_type := d_type prev; d_subject := value; d_tags := d_tags prev;
                d_file := d_file prev; is_public := is_public prev |}
  | click_tag tag =>
      h |> setNewNote
             {| d_title := d_title prev; d_content := d_content prev;
                d_type := d_type prev; d_subject := d_subject prev;
                d_tags := toggleTag tag (d_tags prev);
                d_file := d_file prev; is_public := is_public prev |}
  | check_public checked =>
      h |> setNewNote
             {| d_title := d_title prev; d_content := d_content prev;
                d_type := d_type prev; d_subject := d_subject prev;
                d_tags := d_tags prev; d_file := d_file prev; is_public := checked |}
  end.

(** The control is on the page: the URL input and the text area are rendered
    for the types LINK and TEXT, the file input for the type FILE. *)
Definition rendered (e : FormEdit) (h : Hub) : bool :=
  match e with
  | type_content _ =>
      DraftType_eqb (d_type (newNote h)) LINK || DraftType_eqb (d_type (newNote h)) TEXT
  | choose_file _ => DraftType_eqb (d_type (newNote h)) FILE
  | _ => true
  end.

Fixpoint run_edits (es : list FormEdit) (h : Hub) : option Hub :=
  match es with
  | [] => Some h
  | e :: es' => if rendered e h then run_edits es' (form_edit e h) else None
  end.

(** A FILE draft has no content and any other draft has no file. *)
Definition draft_exclusive (d : Draft) : Prop :=
  (d_type d = FILE -> d_content d = "") /\ (d_type d <> FILE -> d_file d = None).

Definition is_submit_task (t : Task) : bool :=
  match t with
  | handleSubmit_await_uploadFile _ | handleSubmit_await_getNotes _ => true
  | _ => false
  end.

Definition count_submit (l : list Task) : nat :=
  List.length (filter is_submit_task l).

(** Each busy flag is set exactly while one request of its kind is in
    flight. *)
Definition busy_inv (s : System) : Prop :=
  count_summary (inflight s) = (if isGeneratingSummary (hub s) then 1 else 0)%nat
  /\ count_submit (inflight s) = (if isSubmitting (hub s) then 1 else 0)%nat.

Definition big_file : File :=
  {| file_name := "scan.pdf"; file_size := 10 * 1024 * 1024 + 1;
     file_type := "application/pdf" |}.

Definition limit_file : File :=
  {| file_name := "lecture.notes.pdf"; file_size := 10 * 1024 * 1024;
     file_type := "application/pdf" |}.

Definition draft_blank_title : Draft :=
  {| d_title := "   "; d_content := "Key ideas"; d_type := TEXT;
     d_subject := ""; d_tags := []; d_file := None; is_public := false |}.

Definition conflict : AxiosError :=
  {| ax_message := "Request failed with status code 409";
     ax_response := Some (Some {| detail := Js.str "A note with this title exists";
                                   data_message := Js.undefined |});
     ax_request := true |}.

(** A session with the upload form: a file is chosen, then the type is
    changed to LINK and a title and a URL are typed. *)
Definition form_session : list FormEdit :=
  [pick_type FILE; choose_file limit_file; click_tag "AI"; pick_type LINK;
   type_title "Recursion"; type_content "https://example.com"].

Definition after_form_session : Hub :=
  Eval vm_compute in
    match run_edits form_session initial_hub with
    | Some h => h
    | None => initial_hub
    end.

(** A run the page lets through in which a summary and a submission are in
    flight at the same time. *)
Definition busy_run : list Event :=
  [Mount; EditDraft draft_text; Submit; GenerateSummary note_A;
   Settle 1 "2025-01-03" (upload_reply (Fulfilled response_text))].

Definition busy_system : System :=
  Eval vm_compute in
    match run_enabled busy_run initial with
    | Some s => s
    | None => initial
    end.

(** The system after the upload of [submitting] succeeded. *)
Definition after_upload : System :=
  Eval vm_compute in
    match step (Settle 0 "2025-01-03" (upload_reply (Fulfilled response_text)))
               submitting with
    | Some s => s
    | None => submitting
    end.

(** ** The file upload widget ([FileUpload.tsx], [cloudinaryUpload.ts]) *)

Module FileUpload.

(** The state variables of the component.  The texts of the messages are
    given in their UTF-8 encoding. *)
Record State : Type := mkState {
  file : option File;
  uploading : bool;
  message : string
}.

Definition setFile (v : option File) (st : State) : State :=
  mkState v (uploading st) (message st).

Definition setUploading (v : bool) (st : State) : State :=
  mkState (file st) v (message st).

Definition setMessage (v : string) (st : State) : State :=
  mkState (file st) (uploading st) v.

Definition initial_state : State :=
  {| file := None; uploading := false; message := "" |}.

(** [e.target.files?.[0] || null] is the argument. *)
Definition handleFileChange (chosen : option File) (st : State) : State :=
  st |> setFile chosen.

(** The answer to the request of [uploadToCloudinary]: [ok] is
    [response.ok], [secure_url] what [(await response.json()).secure_url]
    evaluates to. *)
Record FetchResponse : Type := {
  ok : bool;
  secure_url : Try Js.value
}.

Inductive Fetched : Type :=
| fetch_fulfilled (response : FetchResponse)
| fetch_rejected (e : Exn).

(** [cloudinaryUpload.ts], after [await fetch(url, ...)] *)
Definition uploadToCloudinary (r : Fetched) : Try Js.value :=
  match r with
  | fetch_rejected e => throw e
  | fetch_fulfilled response =>
      if negb (ok response) then throw (Error "Cloudinary upload failed")
      else secure_url response
  end.

(** The document handed to [addDoc]; [createdAt] is the server's time
    stamp. *)
Record NoteDoc : Type := {
  doc_title : string;
  fileURL : Js.value
}.

Inductive Task : Type :=
| handleUpload_await_uploadToCloudinary (f : File)
| handleUpload_await_addDoc (doc : NoteDoc).

Definition allowedTypes : list string :=
  ["application/pdf";
   "application/vnd.openxmlformats-officedocument.wordprocessingml.document";
   "image/jpeg"; "image/png"].

(** [handleUpload] up to its first [await]. *)
Definition handleUpload_start (st : State) : State * option Task :=
  match file st with
  | None => (st |> setMessage "Please select a file first!", None)
  | Some f =>
      let st := st |> setUploading true |> setMessage "Uploading..." in
      if negb (existsb (String.eqb (file_type f)) allowedTypes) then
        (st |> setMessage "❌ Invalid file type. Please upload PDF, DOCX, JPG, or PNG."
            |> setUploading false, None)
      else if (10 * 1024 * 1024 <? file_size f)%Z then
        (st |> setMessage "❌ File too large. Max 10MB allowed."
            |> setUploading false, None)
      else (st, Some (handleUpload_await_uploadToCloudinary f))
  end.

(** The [catch] block of [handleUpload] and the statement after it. *)
Definition handleUpload_catch (error : Exn) (st : State) : State :=
  st |> setMessage ("❌ Upload failed. "
                    ++ Js.to_string (Js.or (Js.str (exn_message error))
                                           (Js.str "Try again!")))
     |> setUploading false.

Definition handleUpload_resume_uploadToCloudinary
    (f : File) (r : Fetched) (st : State) : State * option Task :=
  match uploadToCloudinary r with
  | inr secureUrl =>
      (st, Some (handleUpload_await_addDoc
                   {| doc_title := file_name f; fileURL := secureUrl |}))
  | inl error => (handleUpload_catch error st, None)
  end.

(** [r] is the outcome of [addDoc]. *)
Definition handleUpload_resume_addDoc (r : Try unit) (st : State) : State :=
  match r with
  | inr _ => st |> setMessage "✅ File uploaded successfully!"
                |> setFile None
                |> setUploading false
  | inl error => handleUpload_catch error st
  end.

(** One upload from the click to its end: [None] stands for a request that
    has not settled. *)
Definition handleUpload
    (cloudinary : option Fetched) (stored : option (Try unit)) (st : State)
  : State * option Task :=
  match handleUpload_start st with
  | (st1, Some (handleUpload_await_uploadToCloudinary f)) =>
      match cloudinary with
      | None => (st1, Some (handleUpload_await_uploadToCloudinary f))
      | Some r =>
          match handleUpload_resume_uploadToCloudinary f r st1 with
          | (st2, Some (handleUpload_await_addDoc doc)) =>
              match stored with
              | None => (st2, Some (handleUpload_await_addDoc doc))
              | Some r' => (handleUpload_resume_addDoc r' st2, None)
              end
          | ended => ended
          end
      end
  | ended => ended
  end.

End FileUpload.

(** ** The projects page ([Projects.tsx]) *)

Module Projects.

Record Project : Type := {
  id : Z;
  title : string;
  description : Js.value;
  created_at : string
}.

(** The state variable [formData]. *)
Record Form : Type := {
  form_title : string;
  form_description : string
}.

(** [Record<number, number>]: the assignments [counts[k] = v] made so far,
    the latest first. *)
Definition Counts : Type := list (Z * nat).

(** [counts[k] = v] *)
Definition set_count (k : Z) (v : nat) (counts : Counts) : Counts :=
  (k, v) :: counts.

(** [counts[k]] *)
Fixpoint get_count (k : Z) (counts : Counts) : option nat :=
  match counts with
  | [] => None
  | (k', v) :: counts' => if Z.eqb k' k then Some v else get_count k counts'
  end.

(** The state variables of the component, then the toasts raised so far,
    newest first. *)
Record State : Type := mkState {
  projects : list Project;
  isLoading : bool;
  isModalOpen : bool;
  isEditing : bool;
  editingProject : option Project;
  searchQuery : string;
  isSearching : bool;
  memberCounts : Counts;
  formData : Form;
  toasts : list Toast
}.

Definition setProjects (v : list Project) (st : State) : State :=
  mkState v (isLoading st) (isModalOpen st) (isEditing st) (editingProject st) (searchQuery st) (isSearching st) (memberCounts st) (formData st) (toasts st).

Definition setIsLoading (v : bool) (st : State) : State :=
  mkState (projects st) v (isModalOpen st) (isEditing st) (editingProject st) (searchQuery st) (isSearching st) (memberCounts st) (formData st) (toasts st).

Definition setIsModalOpen (v : bool) (st : State) : State :=
  mkState (projects st) (isLoading st) v (isEditing st) (editingProject st) (searchQuery st) (isSearching st) (memberCounts st) (formData st) (toasts st).

Definition setIsEditing (v : bool) (st : State) : State :=
  mkState (projects st) (isLoading st) (isModalOpen st) v (editingProject st) (searchQuery st) (isSearching st) (memberCounts st) (formData st) (toasts st).

Definition setEditingProject (v : option Project) (st : State) : State :=
  mkState (projects st) (isLoading st) (isModalOpen st) (isEditing st) v (searchQuery st) (isSearching st) (memberCounts st) (formData st) (toasts st).

Definition setSearchQuery (v : string) (st : State) : State :=
  mkState (projects st) (isLoading st) (isModalOpen st) (isEditing st) (editingProject st) v (isSearching st) (memberCounts st) (formData st) (toasts st).

Definition setIsSearching (v : bool) (st : State) : State :=
  mkState (projects st) (isLoading st) (isModalOpen st) (isEditing st) (editingProject st) (searchQuery st) v (memberCounts st) (formData st) (toasts st).

Definition setMemberCounts (v : Counts) (st : State) : State :=
  mkState (projects st) (isLoading st) (isModalOpen st) (isEditing st) (editingProject st) (searchQuery st) (isSearching st) v (formData st) (toasts st).

Definition setFormData (v : Form) (st : State) : State :=
  mkState (projects st) (isLoading st) (isModalOpen st) (isEditing st) (editingProject st) (searchQuery st) (isSearching st) (memberCounts st) v (toasts st).

Definition toast (t : Toast) (st : State) : State :=
  mkState (projects st) (isLoading st) (isModalOpen st) (isEditing st) (editingProject st) (searchQuery st) (isSearching st) (memberCounts st) (formData st) (t :: toasts st).

Definition empty_form : Form := {| form_title := ""; form_description := "" |}.

Definition initial_state : State :=
  {| projects := []; isLoading := true; isModalOpen := false; isEditing := false;
     editingProject := None; searchQuery := ""; isSearching := false;
     memberCounts := []; formData := empty_form; toasts := [] |}.

(** [api.ts] *)
Definition getProjects (r : Settled (list Project)) : Try (list Project) :=
  match r with
  | Fulfilled data => ret data
  | Rejected e => api_catch "Failed to fetch projects" e
  end.

Definition searchProjects (r : Settled (list Project)) : Try (list Project) :=
  match r with
  | Fulfilled data => ret data
  | Rejected e => api_catch "Failed to search projects" e
  end.

Definition createProject (r : Settled Js.value) : Try Js.value :=
  match r with
  | Fulfilled data => ret data
  | Rejected e => api_catch "Failed to create project" e
  end.

(** [getProjectMembers] rethrows what axios rejected with. *)
Definition getProjectMembers (r : Settled (list Js.value)) : Try (list Js.value) :=
  match r with
  | Fulfilled data => ret data
  | Rejected e => throw (Axios e)
  end.

(** A handler suspended at an [await].  The member loop of [fetchProjects]
    keeps the project it asked about, the projects still to come and the
    counts gathered so far. *)
Inductive Task : Type :=
| fetchProjects_await_getProjects
| fetchProjects_await_getProjectMembers
    (project : Project) (rest : list Project) (counts : Counts)
| handleSearch_await_searchProjects (query : string)
| handleSubmit_await_createProject (form : Form).

(** *** fetchProjects *)

Definition fetchProjects_start (st : State) : State * Task :=
  (st |> setIsLoading true, fetchProjects_await_getProjects).

(** The loop head of [for (const project of data)]: the next member request,
    or the end of the [try] block and the [finally]. *)
Definition fetchProjects_loop (todo : list Project) (counts : Counts) (st : State)
  : State * option Task :=
  match todo with
  | project :: rest =>
      (st, Some (fetchProjects_await_getProjectMembers project rest counts))
  | [] => (st |> setMemberCounts counts |> setIsLoading false, None)
  end.

Definition fetchProjects_resume_getProjects
    (r : Settled (list Project)) (st : State) : State * option Task :=
  match getProjects r with
  | inr data => fetchProjects_loop data [] (st |> setProjects data)
  | inl _ => (st |> toast (toast_error "Failed to load projects")
                 |> setIsLoading false, None)
  end.

Definition fetchProjects_resume_getProjectMembers
    (project : Project) (rest : list Project) (counts : Counts)
    (r : Settled (list Js.value)) (st : State) : State * option Task :=
  let counts :=
    match getProjectMembers r with
    | inr members => set_count (id project) (List.length members + 1) counts
    | inl _ => set_count (id project) 1 counts
    end in
  fetchProjects_loop rest counts st.

(** The member requests of one load settle one after the other with
    [replies]. *)
Fixpoint fetchProjects_members
    (replies : list (Settled (list Js.value))) (t : option Task) (st : State)
  : State * option Task :=
  match replies, t with
  | r :: replies', Some (fetchProjects_await_getProjectMembers project rest counts) =>
      let res := fetchProjects_resume_getProjectMembers project rest counts r st in
      fetchProjects_members replies' (snd res) (fst res)
  | _, _ => (st, t)
  end.

(** A whole load: the list request settles with [r], the member requests
    with [replies]. *)
Definition fetchProjects
    (r : Settled (list Project)) (replies : list (Settled (list Js.value)))
    (st : State) : State * option Task :=
  let res := fetchProjects_resume_getProjects r (fst (fetchProjects_start st)) in
  fetchProjects_members replies (snd res) (fst res).

(** The card's member line:
    [{memberCounts[project.id] || 1} member{memberCounts[project.id] !== 1 ? 's' : ''}] *)
Definition memberLabel (project : Project) (st : State) : string :=
  let count :=
    match get_count (id project) (memberCounts st) with
    | Some c => Js.num (Z.of_nat c)
    | None => Js.undefined
    end in
  Js.to_string (Js.or count (Js.num 1)) ++ " member"
  ++ (if negb (Js.seq count (Js.num 1)) then "s" else "").

(** *** The form *)

Definition resetForm (st : State) : State :=
  st |> setFormData empty_form |> setIsEditing false |> setEditingProject None.

Definition handleEdit (project : Project) (st : State) : State :=
  st |> setEditingProject (Some project)
     |> setFormData
          {| form_title := title project;
             form_description :=
               Js.to_string (Js.or (description project) (Js.str "")) |}
     |> setIsEditing true
     |> setIsModalOpen true.

(** [handleSubmit] up to [await createProject(formData)]. *)
Definition handleSubmit_start (st : State) : State * option Task :=
  if negb (Js.truthy (Js.str (Js.trim (form_title (formData st))))) then
    (st |> toast (toast_error "Please enter a title"), None)
  else if isEditing st
          && match editingProject st with Some _ => true | None => false end then
    (st |> toast (toast_error "Update functionality coming soon")
        |> setIsModalOpen false
        |> resetForm, None)
  else (st, Some (handleSubmit_await_createProject (formData st))).

(** After [await createProject(formData)]; on success the list is loaded
    again. *)
Definition handleSubmit_resume_createProject
    (r : Settled Js.value) (st : State) : State * option Task :=
  match createProject r with
  | inr _ =>
      let st := st |> toast (toast_success "Project created successfully!")
                   |> setIsModalOpen false
                   |> resetForm in
      (fst (fetchProjects_start st), Some (snd (fetchProjects_start st)))
  | inl _ => (st |> toast (toast_error "Failed to save project"), None)
  end.

(** *** handleSearch *)

Definition handleSearch_start (query : string) (st : State) : State * Task :=
  let st := st |> setSearchQuery query in
  if (String.length (Js.trim query) <? 2)%nat then
    (fst (fetchProjects_start st) |> setIsSearching false, snd (fetchProjects_start st))
  else (st |> setIsSearching true, handleSearch_await_searchProjects query).

Definition handleSearch_resume_searchProjects
    (r : Settled (list Project)) (st : State) : State :=
  match searchProjects r with
  | inr results => st |> setProjects results
  | inl _ => st |> toast (toast_error "Search failed")
  end |> setIsSearching false.

End Projects.

(** ** The status filter of the tasks page ([Tasks.tsx]) *)

Module Tasks.

Record Task : Type := {
  id : Z;
  title : string;
  description : string;
  status : string;
  created_at : string
}.

(** [tasks.filter(task => filterStatus === 'all' ? true : task.status === filterStatus)] *)
Definition filteredTasks (filterStatus : string) (tasks : list Task) : list Task :=
  filter (fun task =>
            if String.eqb filterStatus "all" then true
            else String.eqb (status task) filterStatus)
         tasks.

End Tasks.

(** The file passes the checks of the upload widget. *)
Definition uploadable (f : File) : Prop :=
  In (file_type f) FileUpload.allowedTypes /\ (file_size f <= 10 * 1024 * 1024)%Z.

Definition cloudinary_ok : FileUpload.Fetched :=
  FileUpload.fetch_fulfilled
    {| FileUpload.ok := true;
       FileUpload.secure_url :=
         inr (Js.str "https://res.cloudinary.com/ddtn8mu1t/raw/upload/v1/scan.pdf") |}.

Definition text_file : File :=
  {| file_name := "notes.txt"; file_size := 20 * 1024 * 1024; file_type := "text/plain" |}.

(** The count the member loop stores for a project whose member request
    settled with [r]. *)
Definition member_count (r : Settled (list Js.value)) : nat :=
  match Projects.getProjectMembers r with
  | inr members => (List.length members + 1)%nat
  | inl _ => 1%nat
  end.

(** The status is one of those the filter buttons of the tasks page offer. *)
Definition offered_status (task : Tasks.Task) : bool :=
  String.eqb (Tasks.status task) "pending"
  || String.eqb (Tasks.status task) "in_progress"
  || String.eqb (Tasks.status task) "completed".

Definition project_1 : Projects.Project :=
  {| Projects.id := 1; Projects.title := "Compiler"; Projects.description := Js.null;
     Projects.created_at := "2025-01-01" |}.

Definition project_2 : Projects.Project :=
  {| Projects.id := 2; Projects.title := "Robot"; Projects.description := Js.str "arm";
     Projects.created_at := "2025-01-02" |}.

Definition task_1 : Tasks.Task :=
  {| Tasks.id := 1; Tasks.title := "Read"; Tasks.description := "";
     Tasks.status := "pending"; Tasks.created_at := "2025-01-01" |}.

Definition task_2 : Tasks.Task :=
  {| Tasks.id := 2; Tasks.title := "Write"; Tasks.description := "";
     Tasks.status := "done"; Tasks.created_at := "2025-01-02" |}.

Definition draft_file : Draft :=
  {| d_title := "Lecture"; d_content := ""; d_type := FILE; d_subject := "";
     d_tags := []; d_file := Some limit_file; is_public := true |}.

(** ** Vocabulary of the summary session *)

(** The summary session holds no text and no error. *)
Definition session_empty (h : Hub) : Prop :=
  summary h = "" /\ summaryError h = None.

(** What the summary workflow keeps under the disabled button: the busy flags
    count the requests in flight, and while a summary request is in flight the
    session is empty. *)
Definition session_inv (s : System) : Prop :=
  busy_inv s
  /\ (forall note text,
        In (handleGenerateSummary_await note text) (inflight s) ->
        session_empty (hub s)).

(** What the summary modal shows once the request has settled with [r]. *)
Definition outcome_body (r : Settled string) : ModalBody :=
  match r with
  | Fulfilled result => summary_text result
  | Rejected _ => error_text "Failed to get summary. Please try again."
  end.

(** A's summary is requested and, while it is generated, "View Content" is
    activated on B's card. *)
Definition viewing_B : System :=
  Eval vm_compute in
    match run_enabled [GenerateSummary note_A; ViewContent note_B] initial with
    | Some s => s
    | None => initial
    end.

(** The system after A's response has then arrived. *)
Definition stale_A_under_B : System :=
  Eval vm_compute in
    match step (Settle 0 "2025-01-03" (summary_reply (Fulfilled "Summary of A")))
               viewing_B with
    | Some s => s
    | None => viewing_B
    end.

(** The notes are loading and A's summary is being generated. *)
Definition generating_A : System :=
  Eval vm_compute in
    match run_enabled [Mount; GenerateSummary note_A] initial with
    | Some s => s
    | None => initial
    end.

(** The response's [url] is a string, as [interface UploadResponse] declares
    it, or is missing. *)
Definition url_declared (response : UploadResponse) : bool :=
  match resp_url response with
  | Js.str _ => true
  | v => negb (Js.truthy v)
  end.

(** The note [n] is the one built from the upload response. *)
Definition built_from (now : string) (response : UploadResponse) (n : Note) : Prop :=
  note_id n = resp_id response
  /\ note_title n = resp_title response
  /\ note_type n
     = (if String.eqb (resp_type response) "text" then other
        else if String.eqb (resp_type response) "link" then url
        else getFileTypeFromUrl
               (Js.to_string (Js.or (resp_url response) (Js.str ""))))
  /\ note_url n = Js.or (resp_url response) (Js.str "#")
  /\ note_tags n = match resp_tags response with Some t => t | None => [] end
  /\ uploadDate n = Js.or (resp_uploadDate response) (Js.str now)
  /\ rating n = 0%Z
  /\ size n = resp_size response
  /\ uploader_name (uploader n) = "You"
  /\ note_content n = Js.or (resp_content response) (Js.str "")
  /\ note_summary n = Js.or (resp_content response) (Js.str "").

(** * Properties *)

(** ** String facts *)

Lemma prefix_split (p s : string) :
  String.prefix p s = true -> exists t, s = p ++ t.
Proof.
  revert s; induction p as [|a p IH]; intros s H.
  - exists s; reflexivity.
  - destruct s as [|b s]; simpl in H; [discriminate|].
    destruct (ascii_dec a b) as [->|]; [|discriminate].
    destruct (IH s H) as [t ->]. exists t; reflexivity.
Qed.

Lemma startsWith_http (u : string) :
  Js.startsWith u "http://" || Js.startsWith u "https://" = true ->
  Js.startsWith u "http" = true /\ Js.truthy (Js.str u) = true
  /\ Js.seq (Js.str u) (Js.str "None") = false.
Proof.
  unfold Js.startsWith; intros H.
  apply orb_true_iff in H; destruct H as [H|H];
    apply prefix_split in H; destruct H as [t ->]; repeat split; reflexivity.
Qed.

(** ** TypeClassifier *)

Lemma absent_or (v : Js.value) : absent v -> Js.or v (Js.str "") = Js.str "".
Proof. intros [->|[->| ->]]; reflexivity. Qed.

Lemma classify_absent (note : RawNote) :
  absent (file_url note) -> classify note = inr other.
Proof.
  intros H; unfold classify; rewrite (absent_or _ H); simpl.
  destruct (Js.truthy (raw_summary note)); reflexivity.
Qed.

(** C4. The record [{id:"7", title:"Notes", file_url:null,
    summary:"Key ideas on recursion"}] is normalized to a note of category
    text (['other']) whose url is the placeholder ["#"], nothing that can be
    opened, and whose content is the summary; and every record whose
    [file_url] is absent, null or empty is classified as text, its note
    carrying the placeholder url. *)
Theorem classify_text_without_file_url :
  (forall now,
     exists n, convertBackendNoteToFrontend now record_7 = inr n
               /\ note_type n = other
               /\ note_url n = Js.str "#" /\ openable n = false
               /\ note_content n = Js.str "Key ideas on recursion")
  /\ (forall note, absent (file_url note) ->
        classify note = inr other
        /\ forall now n, convertBackendNoteToFrontend now note = inr n ->
                         note_type n = other /\ note_url n = Js.str "#").
Proof.
  split.
  - intros now; eexists; split; [reflexivity|]; repeat split; reflexivity.
  - intros note H; split; [exact (classify_absent note H)|].
    intros now n; unfold convertBackendNoteToFrontend.
    rewrite (classify_absent note H), (absent_or _ H); simpl.
    destruct (toString (raw_id note)) as [e|i]; simpl; [discriminate|].
    intros E; injection E as <-; split; reflexivity.
Qed.

Lemma classify_text_without_file_url_witness :
  absent (file_url record_7) /\ classify record_7 = inr other.
Proof.
  assert (H : absent (file_url record_7)) by (right; left; reflexivity).
  split; [exact H|].
  exact (proj1 (proj2 classify_text_without_file_url record_7 H)).
Defined.

(** C5. A record whose [file_url] is an absolute http(s) URL that matches no
    PDF, DOCX or image pattern and that contains a storage marker is sent to
    [getFileTypeFromUrl], whose last rule answers ['url'] for anything that
    starts with "http": the category is url, not other. *)
Theorem classify_hosted_without_extension (note : RawNote) (u : string) :
  file_url note = Js.str u ->
  Js.startsWith u "http://" || Js.startsWith u "https://" = true ->
  Js.includes u ".pdf" = false ->
  Js.includes u ".docx" || Js.includes u ".doc" = false ->
  Js.match_image_ext u = false ->
  Js.includes u "/uploads/" || Js.includes u "cloudinary"
  || Js.includes u "res.cloudinary.com" = true ->
  classify note = inr url.
Proof.
  intros Hu Hhttp Hpdf Hdoc Himg Hmark.
  destruct (startsWith_http u Hhttp) as (Hh & Ht & Hn).
  unfold classify. rewrite Hu. unfold Js.or. rewrite Ht.
  rewrite Ht, Hn. simpl Js.seq.
  assert (He : (u =? "")%string = false).
  { simpl in Ht. destruct (u =? "")%string; [discriminate|reflexivity]. }
  rewrite He. simpl. rewrite Hhttp, Hpdf, Hdoc, Himg.
  unfold getFileTypeFromUrl. rewrite Ht, Hpdf, Hdoc, Himg, Hh. simpl.
  destruct (negb (Js.includes u "/uploads/") && negb (Js.includes u "cloudinary")
            && negb (Js.includes u "res.cloudinary.com")); reflexivity.
Qed.

Lemma classify_hosted_without_extension_witness :
  classify record_hosted = inr url.
Proof.
  apply (classify_hosted_without_extension record_hosted
           "https://res.cloudinary.com/x/upload/v1/file"); reflexivity.
Defined.

(** ** ResourceNormalizer *)

Lemma classify_usable (note : RawNote) :
  file_url_usable note = true -> exists t, classify note = inr t.
Proof.
  unfold file_url_usable, classify, Js.or.
  destruct (file_url note) as [| |b|z|u]; simpl.
  - destruct (Js.truthy (raw_summary note)); eauto.
  - destruct (Js.truthy (raw_summary note)); eauto.
  - intros H; apply negb_true_iff in H; subst b; simpl.
    destruct (Js.truthy (raw_summary note)); eauto.
  - intros H; apply negb_true_iff in H; rewrite H; simpl.
    destruct (Js.truthy (raw_summary note)); eauto.
  - intros _. destruct (u =? "")%string eqn:E; simpl.
    + destruct (Js.truthy (raw_summary note)); eauto.
    + rewrite E; simpl.
      repeat match goal with
             | |- context [if ?c then _ else _] => destruct c; simpl
             end; eauto.
Qed.

Lemma classify_bare (note : RawNote) :
  negb (Js.truthy (file_url note)) = true -> classify note = inr other.
Proof.
  intros H; unfold classify, Js.or.
  apply negb_true_iff in H; rewrite H; simpl.
  destruct (Js.truthy (raw_summary note)); reflexivity.
Qed.

Lemma convert_identified (now : string) (note : RawNote) :
  has_id note = true -> file_url_usable note = true ->
  exists n, convertBackendNoteToFrontend now note = inr n /\ normalized_from note n.
Proof.
  intros Hid Hurl.
  destruct (classify_usable note Hurl) as [t Ht].
  assert (Hs : toString (raw_id note) = inr (Js.to_string (raw_id note))).
  { unfold has_id in Hid; destruct (raw_id note); try discriminate; reflexivity. }
  unfold convertBackendNoteToFrontend; rewrite Ht, Hs; simpl.
  eexists; split; [reflexivity|].
  repeat split; simpl.
  - unfold bare in H.
    apply andb_true_iff in H; destruct H as [H _].
    apply andb_true_iff in H; destruct H as [H _].
    rewrite (classify_bare note H) in Ht; injection Ht as <-; reflexivity.
  - unfold bare in H.
    apply andb_true_iff in H; destruct H as [H _].
    apply andb_true_iff in H; destruct H as [H _].
    rewrite (classify_bare note H) in Ht; injection Ht as <-.
    apply negb_true_iff in H; unfold Js.or; rewrite H; reflexivity.
  - unfold bare in H.
    apply andb_true_iff in H; destruct H as [H Hc].
    apply andb_true_iff in H; destruct H as [_ Hsm].
    apply negb_true_iff in Hc, Hsm; unfold Js.or; rewrite Hc, Hsm; reflexivity.
Qed.

(** C3, as the code has it.  Every list of records that each carry an id and
    a [file_url] that is a string or absent is normalized without an
    exception, record by record and in order; the note keeps the record's id
    and title (a missing title stays missing), and a record with no url,
    summary and extracted text becomes a text note with the placeholder url
    and empty content. *)
Theorem normalize_identified_records (now : string) (records : list RawNote) :
  Forall (fun note => has_id note = true /\ file_url_usable note = true) records ->
  exists ns, normalize now records = inr ns /\ Forall2 normalized_from records ns.
Proof.
  induction 1 as [|note records [Hid Hurl] _ IH].
  - exists []; split; [reflexivity|constructor].
  - destruct (convert_identified now note Hid Hurl) as (n & Hn & Hfrom).
    destruct IH as (ns & Hns & Hall).
    exists (n :: ns); split.
    + unfold normalize in *; simpl; rewrite Hn; simpl; rewrite Hns; reflexivity.
    + constructor; assumption.
Qed.

Lemma normalize_identified_records_witness :
  exists ns, normalize "2025-01-03" [record_A; record_no_title] = inr ns
             /\ Forall2 normalized_from [record_A; record_no_title] ns.
Proof.
  apply (normalize_identified_records "2025-01-03" [record_A; record_no_title]).
  repeat constructor.
Defined.

(** C3 fails on a record without an id: [note.id.toString()] throws, and the
    exception aborts the conversion of the whole list it is part of. *)
Lemma normalize_missing_id_throws :
  convertBackendNoteToFrontend "2025-01-03" record_no_id
  = inl (TypeError "Cannot read properties of undefined (reading 'toString')")
  /\ normalize "2025-01-03" [record_A; record_no_id; record_B]
     = inl (TypeError "Cannot read properties of undefined (reading 'toString')").
Proof. split; reflexivity. Qed.

(** ** Failures of the service layer *)

Lemma api_catch_throws {A} (fallback : string) (e : AxiosError) :
  exists x, @api_catch A fallback e = inl x.
Proof.
  unfold api_catch; destruct (ax_response e) as [[d|]|]; eexists; reflexivity.
Qed.

Lemma getNotes_rejected_normalize (now : string) (e : AxiosError) :
  exists x, (backendNotes <- getNotes (Rejected e) ;; normalize now backendNotes) = inl x.
Proof.
  simpl; destruct (api_catch_throws (A := list RawNote) "Failed to fetch notes" e)
    as [x Hx]; rewrite Hx; exists x; reflexivity.
Qed.

Lemma searchResources_rejected_normalize (now : string) (e : AxiosError) :
  exists x, (results <- searchResources (Rejected e) ;; normalize now results) = inl x.
Proof.
  simpl; destruct (api_catch_throws (A := list RawNote) "Failed to search resources" e)
    as [x Hx]; rewrite Hx; exists x; reflexivity.
Qed.

Lemma summarizeText_rejected (e : AxiosError) :
  summarizeText (Rejected e) = inl (Error "Failed to get summary. Please try again.").
Proof.
  unfold summarizeText; simpl.
  destruct (api_catch_throws (A := string) "Failed to generate summary" e) as [x Hx].
  rewrite Hx; reflexivity.
Qed.

(** C7, as the code has it.  A failed summary request ends the loading state
    and sets an error message, but the message is always the fixed text that
    [summarizeText] throws: the detail the server sent, which
    [generateSummary] had put into its exception, does not reach the modal. *)
Theorem summary_failure_message (note : Note) (e : AxiosError) (h : Hub) :
  isGeneratingSummary (handleGenerateSummary_resume note (Rejected e) h) = false
  /\ summaryError (handleGenerateSummary_resume note (Rejected e) h)
     = Some "Failed to get summary. Please try again."
  /\ generateSummary (Rejected rate_limited) = inl (Error "Rate limit exceeded")
  /\ option_map (fun s => summaryModal (hub s))
       (run [GenerateSummary note_A;
             Settle 0 "2025-01-03" (summary_reply (Rejected rate_limited))] initial)
     = Some (Some (Js.str "A",
                   error_text "Failed to get summary. Please try again.")).
Proof.
  unfold handleGenerateSummary_resume; rewrite summarizeText_rejected.
  repeat split; reflexivity.
Qed.

(** ** SearchController *)

(** C9, as the code has it.  When the request of the list-all branch of
    [handleSearch] fails, the list is left unchanged and the failure is
    written to the console only: no toast is raised and no state variable
    changes.  When the request of the filtered branch fails, the list is left
    unchanged and the toast "Search failed" is raised. *)
Theorem search_failure_paths (s : System) (k : nat) (now : string) (e : AxiosError) :
  (nth_error (inflight s) k = Some handleSearch_await_getNotes ->
   exists s', step (Settle k now (notes_reply (Rejected e))) s = Some s'
              /\ hub s' = console_error "Error fetching notes:" (hub s)
              /\ notes (hub s') = notes (hub s)
              /\ toasts (hub s') = toasts (hub s))
  /\ (forall query,
        nth_error (inflight s) k = Some (handleSearch_await_searchResources query) ->
        exists s', step (Settle k now (notes_reply (Rejected e))) s = Some s'
                   /\ notes (hub s') = notes (hub s)
                   /\ toasts (hub s') = toast_error "Search failed" :: toasts (hub s)).
Proof.
  split.
  - intros Hk; unfold step; rewrite Hk; simpl resume.
    unfold handleSearch_resume_getNotes.
    destruct (getNotes_rejected_normalize now e) as [x Hx]; rewrite Hx.
    eexists; split; [reflexivity|]; repeat split; reflexivity.
  - intros query Hk; unfold step; rewrite Hk; simpl resume.
    unfold handleSearch_resume_searchResources.
    destruct (searchResources_rejected_normalize now e) as [x Hx]; rewrite Hx.
    eexists; split; [reflexivity|]; repeat split; reflexivity.
Qed.

Lemma search_failure_paths_witness :
  run [Search "a"] initial = Some after_short_query
  /\ exists s', step (Settle 0 "2025-01-03" (notes_reply (Rejected unreachable)))
                  after_short_query = Some s'
                /\ hub s' = console_error "Error fetching notes:" (hub after_short_query)
                /\ notes (hub s') = notes (hub after_short_query)
                /\ toasts (hub s') = toasts (hub after_short_query).
Proof.
  split; [reflexivity|].
  apply (proj1 (search_failure_paths after_short_query 0 "2025-01-03" unreachable)).
  reflexivity.
Defined.

(** ** IngestionController *)

Lemma truthy_str (x : string) : Js.truthy (Js.str x) = true <-> x <> "".
Proof.
  simpl; destruct (String.eqb_spec x ""); simpl; split; congruence.
Qed.

(** C8, as the code has it.  For a LINK draft whose content is empty or does
    not start with "http" once trimmed, [handleSubmit] returns during
    validation: no request is added to those in flight, the list and the
    submitting flag are untouched, and the toast is "Please enter a valid
    URL" unless the title is blank, in which case it is "Please enter a
    title". *)
Theorem submit_invalid_link (s : System) :
  d_type (newNote (hub s)) = LINK ->
  invalid_link (newNote (hub s)) ->
  exists h', step Submit s = Some {| hub := h'; inflight := inflight s |}
             /\ notes h' = notes (hub s)
             /\ isSubmitting h' = isSubmitting (hub s)
             /\ (Js.trim (d_title (newNote (hub s))) <> "" ->
                 toasts h' = toast_error "Please enter a valid URL" :: toasts (hub s))
             /\ (Js.trim (d_title (newNote (hub s))) = "" ->
                 toasts h' = toast_error "Please enter a title" :: toasts (hub s)).
Proof.
  intros Hty Hbad; unfold step, spawn_opt, handleSubmit_start.
  destruct (Js.truthy (Js.str (Js.trim (d_title (newNote (hub s)))))) eqn:Et; simpl.
  - apply truthy_str in Et.
    assert (Hc : negb (Js.truthy (Js.str (d_content (newNote (hub s)))))
                 || negb (Js.startsWith (Js.trim (d_content (newNote (hub s)))) "http")
                 = true).
    { destruct Hbad as [-> | ->]; [reflexivity | apply orb_true_r]. }
    rewrite Hty; simpl DraftType_eqb; simpl in Hc |- *; rewrite Hc; simpl.
    eexists; split; [reflexivity|]; repeat split; try reflexivity; congruence.
  - assert (Hn : Js.trim (d_title (newNote (hub s))) = "").
    { destruct (String.eqb_spec (Js.trim (d_title (newNote (hub s)))) "") as [E|E];
        [exact E|].
      apply truthy_str in E; congruence. }
    eexists; split; [reflexivity|]; repeat split; try reflexivity; congruence.
Qed.

Lemma submit_invalid_link_witness :
  exists h', step Submit (editing draft_not_a_url)
             = Some {| hub := h'; inflight := [] |}
             /\ toasts h' = [toast_error "Please enter a valid URL"].
Proof.
  destruct (submit_invalid_link (editing draft_not_a_url) eq_refl
              (or_intror eq_refl)) as (h' & Hstep & _ & _ & Hurl & _).
  exists h'; split; [exact Hstep|].
  apply Hurl; discriminate.
Defined.

(** C8 fails as stated on two drafts of kind LINK.  The content
    " https://example.com" does not start with "http", yet it passes the
    validation, which trims first, and the upload request is issued.  The
    content "not-a-url" under a blank title is refused with the title
    message, not the URL one. *)
Lemma submit_link_counterexample :
  (d_type draft_padded_link = LINK
   /\ Js.startsWith (d_content draft_padded_link) "http" = false
   /\ option_map inflight (step Submit (editing draft_padded_link))
      = Some [handleSubmit_await_uploadFile
                [("title", form_text "Recursion"); ("type", form_text "LINK");
                 ("subject", form_text ""); ("is_public", form_text "false");
                 ("content", form_text "https://example.com")]])
  /\ (d_type draft_untitled_link = LINK
      /\ Js.startsWith (d_content draft_untitled_link) "http" = false
      /\ option_map (fun s => toasts (hub s)) (step Submit (editing draft_untitled_link))
         = Some [toast_error "Please enter a title"]).
Proof. repeat split; reflexivity. Qed.

Lemma nth_error_last {A} (l : list A) (x : A) :
  nth_error (l ++ [x]) (List.length l) = Some x.
Proof. induction l; simpl; auto. Qed.

Lemma remove_nth_last {A} (l : list A) (x : A) :
  remove_nth (List.length l) (l ++ [x]) = l.
Proof. induction l; simpl; [reflexivity | f_equal; assumption]. Qed.

Lemma uploadedNote_built (now : string) (response : UploadResponse) :
  url_declared response = true ->
  exists n, uploadedNote now response = inr n /\ built_from now response n.
Proof.
  unfold url_declared, uploadedNote, built_from; intros Hurl.
  destruct (String.eqb (resp_type response) "text");
    [eexists; split; [reflexivity|]; repeat split|].
  destruct (String.eqb (resp_type response) "link");
    [eexists; split; [reflexivity|]; repeat split|].
  unfold Js.or in *.
  destruct (resp_url response) as [| |b|z|u]; simpl in Hurl |- *.
  - eexists; split; [reflexivity|]; repeat split.
  - eexists; split; [reflexivity|]; repeat split.
  - apply negb_true_iff in Hurl; subst b.
    eexists; split; [reflexivity|]; repeat split.
  - apply negb_true_iff in Hurl; rewrite Hurl.
    eexists; split; [reflexivity|]; repeat split.
  - destruct (u =? "")%string; eexists; (split; [reflexivity|]); repeat split.
Qed.

(** C6. When the upload request of a submission succeeds, with a response
    whose url is a string or missing, the note built from that response (its
    id, title, url, tags, size and content, its type from the response's type
    and url) is put in front of the list and only then is the refresh request
    in flight.  Whenever that refresh settles: if it succeeds and its records
    normalize, the list becomes exactly the normalized records; if it fails,
    or its records cannot be normalized, the list is left as it is,
    provisional note included. *)
Theorem submit_optimistic_then_refresh
    (s : System) (k : nat) (formData : FormData) (now : string)
    (response : UploadResponse) :
  nth_error (inflight s) k = Some (handleSubmit_await_uploadFile formData) ->
  url_declared response = true ->
  exists n s1,
    built_from now response n
    /\ step (Settle k now (upload_reply (Fulfilled response))) s = Some s1
    /\ notes (hub s1) = n :: notes (hub s)
    /\ toasts (hub s1) = toasts (hub s)
    /\ inflight s1
       = (remove_nth k (inflight s) ++ [handleSubmit_await_getNotes response])%list
    /\ nth_error (inflight s1) (List.length (remove_nth k (inflight s)))
       = Some (handleSubmit_await_getNotes response)
    /\ forall s' k' now',
         nth_error (inflight s') k' = Some (handleSubmit_await_getNotes response) ->
         (forall records ns,
            normalize now' records = inr ns ->
            exists s2,
              step (Settle k' now' (notes_reply (Fulfilled records))) s' = Some s2
              /\ notes (hub s2) = ns)
         /\ (forall e,
               exists s2,
                 step (Settle k' now' (notes_reply (Rejected e))) s' = Some s2
                 /\ notes (hub s2) = notes (hub s'))
         /\ (forall records x,
               normalize now' records = inl x ->
               exists s2,
                 step (Settle k' now' (notes_reply (Fulfilled records))) s' = Some s2
                 /\ notes (hub s2) = notes (hub s')).
Proof.
  intros Hk Hurl.
  destruct (uploadedNote_built now response Hurl) as (n & Hn & Hbuilt).
  exists n; eexists; split; [exact Hbuilt|]. split.
  { unfold step; rewrite Hk; simpl resume.
    unfold handleSubmit_resume_uploadFile; simpl uploadFile; simpl bind at 1.
    rewrite Hn; simpl. reflexivity. }
  simpl. split; [reflexivity|]. split; [reflexivity|]. split; [reflexivity|].
  split; [apply nth_error_last|].
  intros s' k' now' Hk'; split; [|split].
  - intros records ns Hns.
    unfold step; rewrite Hk'; simpl resume.
    unfold handleSubmit_resume_getNotes; simpl getNotes; simpl bind.
    rewrite Hns. eexists; split; reflexivity.
  - intros e.
    unfold step; rewrite Hk'; simpl resume.
    unfold handleSubmit_resume_getNotes.
    destruct (getNotes_rejected_normalize now' e) as [x Hx]; rewrite Hx.
    eexists; split; reflexivity.
  - intros records x Hx.
    unfold step; rewrite Hk'; simpl resume.
    unfold handleSubmit_resume_getNotes; simpl getNotes; simpl bind.
    rewrite Hx. eexists; split; reflexivity.
Qed.

Lemma submit_optimistic_then_refresh_witness :
  run [EditDraft draft_text; Submit] initial = Some submitting
  /\ exists n s1,
       note_id n = "42" /\ note_title n = Js.str "Recursion" /\ note_type n = other
       /\ note_url n = Js.str "#"
       /\ step (Settle 0 "2025-01-03" (upload_reply (Fulfilled response_text)))
            submitting = Some s1
       /\ notes (hub s1) = [n]
       /\ inflight s1 = [handleSubmit_await_getNotes response_text]
       /\ exists s2,
            step (Settle 0 "2025-01-04" (notes_reply (Rejected unreachable))) s1
            = Some s2
            /\ notes (hub s2) = [n].
Proof.
  split; [reflexivity|].
  destruct (submit_optimistic_then_refresh submitting 0
              (buildFormData draft_text) "2025-01-03" response_text
              eq_refl eq_refl)
    as (n & s1 & Hb & Hstep & Hnotes & _ & Hfl & Hlast & Hrefresh).
  destruct Hb as (B1 & B2 & B3 & B4 & _).
  exists n, s1.
  split; [exact B1|]. split; [exact B2|]. split; [exact B3|]. split; [exact B4|].
  split; [exact Hstep|]. split; [exact Hnotes|]. split; [exact Hfl|].
  destruct (Hrefresh s1 0%nat "2025-01-04" Hlast) as (_ & Hrej & _).
  destruct (Hrej unreachable) as (s2 & Hs2 & Hn2).
  exists s2; split; [exact Hs2|]. rewrite Hn2; exact Hnotes.
Defined.

(** ** Search responses are applied on arrival *)

Lemma handleSearch_start_task (query : string) (h : Hub) :
  is_search_task query (snd (handleSearch_start query h)).
Proof.
  unfold handleSearch_start, is_search_task.
  destruct (String.length (Js.trim query) <? 2)%nat; simpl; auto.
Qed.

Lemma search_resume_fulfilled
    (query now : string) (t : Task) (records : list RawNote) (ns : list Note) (h : Hub) :
  is_search_task query t ->
  normalize now records = inr ns ->
  exists h', resume now t (notes_reply (Fulfilled records)) h = Some (h', None)
             /\ notes h' = ns.
Proof.
  intros [-> | ->] Hns; simpl.
  - unfold handleSearch_resume_getNotes; simpl; rewrite Hns.
    eexists; split; reflexivity.
  - unfold handleSearch_resume_searchResources; simpl; rewrite Hns.
    eexists; split; reflexivity.
Qed.

Lemma step_settle (s : System) (k : nat) (now : string) (r : Reply) (t : Task) (h' : Hub) :
  nth_error (inflight s) k = Some t ->
  resume now t r (hub s) = Some (h', None) ->
  step (Settle k now r) s = Some {| hub := h'; inflight := remove_nth k (inflight s) |}.
Proof. intros Hk Hr; unfold step; rewrite Hk, Hr; reflexivity. Qed.

Lemma nth_error_before_last {A} (l : list A) (x y : A) :
  nth_error ((l ++ [x]) ++ [y]) (List.length l) = Some x.
Proof. induction l; simpl; auto. Qed.

Lemma nth_error_snoc2 {A} (l : list A) (x y : A) :
  nth_error ((l ++ [x]) ++ [y]) (S (List.length l)) = Some y.
Proof. induction l; simpl; auto. Qed.

Lemma remove_nth_snoc2 {A} (l : list A) (x y : A) :
  remove_nth (S (List.length l)) ((l ++ [x]) ++ [y]) = (l ++ [x])%list.
Proof. induction l; simpl; [reflexivity | f_equal; assumption]. Qed.

Lemma remove_nth_before_last {A} (l : list A) (x y : A) :
  remove_nth (List.length l) ((l ++ [x]) ++ [y]) = (l ++ [y])%list.
Proof. induction l; simpl; [reflexivity | f_equal; assumption]. Qed.

(** C1, as the code has it.  [handleSearch] keeps no sequence number: the
    continuation of every request replaces the list with its own normalized
    result when it arrives.  For two requests issued in order A then B whose
    responses both succeed, the list after both have arrived is the result of
    the one that arrived last: A's when B's response overtakes A's, B's when
    the responses arrive in the order of issue. *)
Theorem search_last_arrival_wins
    (s : System) (qA qB nowA nowB : string) (recordsA recordsB : list RawNote)
    (nsA nsB : list Note) :
  normalize nowA recordsA = inr nsA ->
  normalize nowB recordsB = inr nsB ->
  (exists s',
     run [Search qA; Search qB;
          Settle (S (List.length (inflight s))) nowB (notes_reply (Fulfilled recordsB));
          Settle (List.length (inflight s)) nowA (notes_reply (Fulfilled recordsA))] s
     = Some s'
     /\ notes (hub s') = nsA /\ inflight s' = inflight s)
  /\ (exists s',
        run [Search qA; Search qB;
             Settle (List.length (inflight s)) nowA (notes_reply (Fulfilled recordsA));
             Settle (List.length (inflight s)) nowB (notes_reply (Fulfilled recordsB))] s
        = Some s'
        /\ notes (hub s') = nsB /\ inflight s' = inflight s).
Proof.
  intros HA HB.
  set (s1 := spawn s (handleSearch_start qA (hub s))).
  set (s2 := spawn s1 (handleSearch_start qB (hub s1))).
  pose proof (handleSearch_start_task qA (hub s)) as TA.
  pose proof (handleSearch_start_task qB (hub s1)) as TB.
  assert (Hfl : inflight s2
                = ((inflight s ++ [snd (handleSearch_start qA (hub s))])
                     ++ [snd (handleSearch_start qB (hub s1))])%list) by reflexivity.
  split.
  - destruct (search_resume_fulfilled qB nowB _ recordsB nsB (hub s2) TB HB)
      as (hB & HrB & _).
    destruct (search_resume_fulfilled qA nowA _ recordsA nsA hB TA HA)
      as (hA & HrA & HnA).
    exists {| hub := hA; inflight := inflight s |}.
    split; [|split; [exact HnA | reflexivity]].
    change (run [Settle (S (List.length (inflight s))) nowB (notes_reply (Fulfilled recordsB));
                 Settle (List.length (inflight s)) nowA (notes_reply (Fulfilled recordsA))] s2
            = Some {| hub := hA; inflight := inflight s |}).
    cbn [run].
    rewrite (step_settle s2 _ nowB _ _ hB
               ltac:(rewrite Hfl; apply nth_error_snoc2) HrB).
    rewrite Hfl, remove_nth_snoc2.
    rewrite (step_settle
               {| hub := hB;
                  inflight := (inflight s ++ [snd (handleSearch_start qA (hub s))])%list |}
               (List.length (inflight s)) nowA _ _ hA (nth_error_last _ _) HrA).
    cbn [inflight]; rewrite remove_nth_last; reflexivity.
  - destruct (search_resume_fulfilled qA nowA _ recordsA nsA (hub s2) TA HA)
      as (hA & HrA & _).
    destruct (search_resume_fulfilled qB nowB _ recordsB nsB hA TB HB)
      as (hB & HrB & HnB).
    exists {| hub := hB; inflight := inflight s |}.
    split; [|split; [exact HnB | reflexivity]].
    change (run [Settle (List.length (inflight s)) nowA (notes_reply (Fulfilled recordsA));
                 Settle (List.length (inflight s)) nowB (notes_reply (Fulfilled recordsB))] s2
            = Some {| hub := hB; inflight := inflight s |}).
    cbn [run].
    rewrite (step_settle s2 _ nowA _ _ hA
               ltac:(rewrite Hfl; apply nth_error_before_last) HrA).
    rewrite Hfl, remove_nth_before_last.
    rewrite (step_settle
               {| hub := hA;
                  inflight := (inflight s ++ [snd (handleSearch_start qB (hub s1))])%list |}
               (List.length (inflight s)) nowB _ _ hB (nth_error_last _ _) HrB).
    cbn [inflight]; rewrite remove_nth_last; reflexivity.
Qed.

Lemma search_last_arrival_wins_witness :
  exists nsA nsB s',
    normalize "2025-01-03" [record_A] = inr nsA
    /\ normalize "2025-01-03" [record_B] = inr nsB
    /\ run [Search "ab"; Search "abc";
            Settle 1 "2025-01-03" (notes_reply (Fulfilled [record_B]));
            Settle 0 "2025-01-03" (notes_reply (Fulfilled [record_A]))] initial
       = Some s'
    /\ notes (hub s') = nsA.
Proof.
  do 2 eexists.
  destruct (search_last_arrival_wins initial "ab" "abc" "2025-01-03" "2025-01-03"
              [record_A] [record_B] _ _ eq_refl eq_refl)
    as ((s' & Hrun & Hnotes & _) & _).
  exists s'; repeat split; [exact Hrun | exact Hnotes].
Defined.

(** C1 fails: with A = "ab" issued before B = "abc" and B's response arriving
    first, the list shown after both responses is A's result, not B's. *)
Lemma search_race_counterexample :
  exists nsA nsB,
    normalize "2025-01-03" [record_A] = inr nsA
    /\ normalize "2025-01-03" [record_B] = inr nsB
    /\ option_map (fun s => notes (hub s))
         (run [Search "ab"; Search "abc";
               Settle 1 "2025-01-03" (notes_reply (Fulfilled [record_B]));
               Settle 0 "2025-01-03" (notes_reply (Fulfilled [record_A]))] initial)
       = Some nsA
    /\ nsA <> nsB.
Proof.
  do 2 eexists; repeat split; try reflexivity; discriminate.
Qed.

(** * Further properties of the code *)

(** ** More string facts *)

Lemma prefix_app (p t : string) : String.prefix p (p ++ t) = true.
Proof.
  induction p as [|a p IH]; simpl; [destruct t; reflexivity|].
  destruct (ascii_dec a a); [exact IH | congruence].
Qed.

Lemma includes_eq (s p : string) :
  Js.includes s p
  = String.prefix p s
    || match s with
       | EmptyString => false
       | String _ s' => Js.includes s' p
       end.
Proof. destruct s; reflexivity. Qed.

Lemma includes_prefix (s p : string) :
  String.prefix p s = true -> Js.includes s p = true.
Proof. intros H; rewrite includes_eq, H; reflexivity. Qed.

Lemma includes_app (a p b : string) : Js.includes (a ++ p ++ b) p = true.
Proof.
  induction a as [|c a IH].
  - simpl append; apply includes_prefix, prefix_app.
  - change (Js.includes (String c (a ++ p ++ b)) p = true).
    rewrite includes_eq, IH; apply orb_true_r.
Qed.

Lemma includes_docx_doc (u : string) :
  Js.includes u ".docx" = true -> Js.includes u ".doc" = true.
Proof.
  induction u as [|c u IH]; [discriminate|].
  rewrite (includes_eq (String c u) ".docx"), (includes_eq (String c u) ".doc").
  intros H; apply orb_true_iff in H; destruct H as [H | H].
  - apply prefix_split in H; destruct H as [t E].
    rewrite E; reflexivity.
  - rewrite (IH H); apply orb_true_r.
Qed.

Lemma str_truthy_eqb (u : string) : u <> "" -> (u =? "")%string = false.
Proof. intros H; destruct (String.eqb_spec u ""); congruence. Qed.

(** ** TypeClassifier, continued *)

Lemma classify_string_url (note : RawNote) (u : string) :
  file_url note = Js.str u -> u <> "" -> u <> "None" ->
  classify note = inr (getFileTypeFromUrl u).
Proof.
  intros Hu He Hn.
  assert (Ht : Js.truthy (Js.str u) = true) by (apply truthy_str; exact He).
  assert (He' := str_truthy_eqb u He).
  assert (Hn' : (u =? "None")%string = false)
    by (destruct (String.eqb_spec u "None"); congruence).
  unfold classify; rewrite Hu; unfold Js.or; rewrite Ht; simpl Js.seq.
  rewrite Ht, He', Hn'; simpl.
  unfold getFileTypeFromUrl; rewrite Ht; simpl negb; cbv iota.
  destruct (Js.startsWith u "http://" || Js.startsWith u "https://") eqn:Hh;
    [|reflexivity].
  destruct (startsWith_http u Hh) as (Hs & _ & _).
  destruct (Js.includes u ".pdf"); [reflexivity|].
  destruct (Js.includes u ".docx" || Js.includes u ".doc"); [reflexivity|].
  destruct (Js.match_image_ext u); [reflexivity|].
  rewrite Hs.
  destruct (negb (Js.includes u "/uploads/") && negb (Js.includes u "cloudinary")
            && negb (Js.includes u "res.cloudinary.com")); reflexivity.
Qed.

(** X1. For a record whose [file_url] is a string other than "" and "None",
    the note type is the one [getFileTypeFromUrl] gives for that string: the
    separate treatment of absolute http(s) URLs in
    [convertBackendNoteToFrontend] never changes the result. *)
Theorem classify_is_getFileTypeFromUrl (note : RawNote) (u : string) :
  file_url note = Js.str u -> u <> "" -> u <> "None" ->
  classify note = inr (getFileTypeFromUrl u).
Proof. exact (classify_string_url note u). Qed.

Lemma classify_is_getFileTypeFromUrl_witness :
  classify record_A = inr (getFileTypeFromUrl "https://x.org/a.pdf").
Proof.
  apply (classify_is_getFileTypeFromUrl record_A "https://x.org/a.pdf");
    [reflexivity | discriminate | discriminate].
Defined.

Lemma no_file_url_classify (note : RawNote) :
  no_file_url note -> classify note = inr other.
Proof.
  intros [H | H]; unfold classify, Js.or; rewrite H; simpl;
    destruct (Js.truthy (raw_summary note)); reflexivity.
Qed.

Lemma classify_unusable (note : RawNote) :
  file_url_usable note = false ->
  classify note = inl (TypeError "fileUrl.startsWith is not a function").
Proof.
  unfold file_url_usable, classify, Js.or.
  destruct (file_url note) as [| |b|z|u]; simpl; try discriminate.
  - intros H; apply negb_false_iff in H; subst b; reflexivity.
  - intros H; apply negb_false_iff in H; rewrite H; simpl.
    destruct (z =? 0)%Z; [discriminate | reflexivity].
Qed.

Lemma usable_cases (note : RawNote) :
  file_url_usable note = true ->
  no_file_url note
  \/ exists u, file_url note = Js.str u /\ u <> "" /\ u <> "None".
Proof.
  unfold file_url_usable, no_file_url.
  destruct (file_url note) as [| |b|z|u] eqn:E; simpl; intros H;
    try (left; left; first [reflexivity | apply negb_true_iff; exact H]).
  destruct (String.eqb_spec u "") as [-> | He]; [left; left; reflexivity|].
  destruct (String.eqb_spec u "None") as [-> | Hn]; [left; right; reflexivity|].
  right; exists u; auto.
Qed.

(** X2. What a note made from a record carries as type and url.  When the
    record's [file_url] is falsy or the literal "None", the note is a text
    note with the placeholder url "#"; otherwise [file_url] is a string, the
    note has the type [getFileTypeFromUrl] gives for it and that string as
    url.  The record's summary is never used as the url. *)
Theorem convert_type_and_url (now : string) (note : RawNote) (n : Note) :
  convertBackendNoteToFrontend now note = inr n ->
  (no_file_url note /\ note_type n = other /\ note_url n = Js.str "#")
  \/ (exists u, file_url note = Js.str u /\ u <> "" /\ u <> "None"
                /\ note_type n = getFileTypeFromUrl u /\ note_url n = Js.str u).
Proof.
  intros Hc.
  destruct (file_url_usable note) eqn:Hus.
  - destruct (usable_cases note Hus) as [Hno | (u & Hu & He & Hn)].
    + left; split; [exact Hno|].
      revert Hc; unfold convertBackendNoteToFrontend.
      rewrite (no_file_url_classify note Hno); simpl.
      destruct (toString (raw_id note)); simpl; [discriminate|].
      intros E; injection E as <-; simpl.
      destruct Hno as [H | H]; unfold Js.or; rewrite H; split; reflexivity.
    + right; exists u; repeat split; try assumption;
        revert Hc; unfold convertBackendNoteToFrontend;
        rewrite (classify_string_url note u Hu He Hn); simpl;
        (destruct (toString (raw_id note)); simpl; [discriminate|]);
        intros E; injection E as <-; simpl; [reflexivity|].
      rewrite Hu; unfold Js.or.
      assert (Ht : Js.truthy (Js.str u) = true) by (apply truthy_str; exact He).
      rewrite Ht; rewrite Ht; simpl.
      destruct (String.eqb_spec u "None"); [congruence | reflexivity].
  - revert Hc; unfold convertBackendNoteToFrontend.
    rewrite (classify_unusable note Hus); simpl; discriminate.
Qed.

Lemma convert_type_and_url_witness :
  exists n, convertBackendNoteToFrontend "2025-01-03" record_hosted = inr n
            /\ note_type n = url
            /\ note_url n = Js.str "https://res.cloudinary.com/x/upload/v1/file".
Proof.
  eexists; split; [reflexivity|].
  destruct (convert_type_and_url "2025-01-03" record_hosted _ eq_refl)
    as [(_ & H1 & H2) | (u & Hu & _ & _ & H1 & H2)].
  - discriminate H2.
  - injection Hu as <-; split; [exact H1 | exact H2].
Defined.

(** X3. A record is converted without an exception exactly when it carries an
    id (anything but missing or null) and its [file_url] is a string or a
    falsy value; a truthy [file_url] that is no string (a number, [true])
    makes the conversion throw. *)
Theorem convert_succeeds_iff (now : string) (note : RawNote) :
  (exists n, convertBackendNoteToFrontend now note = inr n)
  <-> has_id note = true /\ file_url_usable note = true.
Proof.
  split.
  - intros [n Hn]; unfold convertBackendNoteToFrontend in Hn.
    destruct (file_url_usable note) eqn:Hus.
    + split; [|reflexivity].
      destruct (classify note); simpl in Hn; [discriminate|].
      unfold has_id; destruct (raw_id note); simpl in Hn;
        first [discriminate | reflexivity].
    + rewrite (classify_unusable note Hus) in Hn; discriminate.
  - intros [Hid Hus].
    destruct (convert_identified now note Hid Hus) as (n & Hn & _).
    exists n; exact Hn.
Qed.

Lemma convert_succeeds_iff_witness :
  exists n, convertBackendNoteToFrontend "2025-01-03" record_no_title = inr n.
Proof.
  apply (proj2 (convert_succeeds_iff "2025-01-03" record_no_title)).
  split; reflexivity.
Defined.

(** X4. Normalizing a list is all or nothing.  It returns notes exactly when
    every record converts, and then the notes are the converted records in
    order; when it throws, the exception is the one of the first record that
    does not convert, and every record before that one converts. *)
Theorem normalize_all_or_nothing (now : string) (records : list RawNote) :
  (forall ns, normalize now records = inr ns
              <-> Forall2 (fun note n => convertBackendNoteToFrontend now note = inr n)
                    records ns)
  /\ (forall e, normalize now records = inl e ->
        exists before note after ns,
          records = (before ++ note :: after)%list
          /\ normalize now before = inr ns
          /\ convertBackendNoteToFrontend now note = inl e).
Proof.
  unfold normalize; induction records as [|r records [IH1 IH2]]; simpl.
  - split.
    + intros ns; split; intros H.
      * injection H as <-; constructor.
      * inversion H; reflexivity.
    + discriminate.
  - split.
    + intros ns; split; intros H.
      * destruct (convertBackendNoteToFrontend now r) as [e|n] eqn:En;
          simpl in H; [discriminate|].
        destruct (mapT (convertBackendNoteToFrontend now) records) as [e|ns'] eqn:Er;
          simpl in H; [discriminate|].
        injection H as <-; constructor; [exact En | apply IH1; reflexivity].
      * inversion H as [|? n ? ns' Hn Hrest]; subst.
        rewrite Hn; simpl.
        apply IH1 in Hrest; rewrite Hrest; reflexivity.
    + intros e H.
      destruct (convertBackendNoteToFrontend now r) as [e'|n] eqn:En; simpl in H.
      * injection H as ->.
        exists [], r, records, []; repeat split; assumption.
      * destruct (mapT (convertBackendNoteToFrontend now) records) as [e'|ns'] eqn:Er;
          simpl in H; [|discriminate].
        injection H as ->.
        destruct (IH2 e eq_refl) as (before & note & after & ns & -> & Hb & Hn).
        exists (r :: before), note, after, (n :: ns); repeat split; try assumption.
        simpl; rewrite En; simpl; rewrite Hb; reflexivity.
Qed.

Lemma normalize_all_or_nothing_witness :
  exists before note after ns,
    [record_A; record_no_id; record_B] = (before ++ note :: after)%list
    /\ normalize "2025-01-03" before = inr ns
    /\ convertBackendNoteToFrontend "2025-01-03" note
       = inl (TypeError "Cannot read properties of undefined (reading 'toString')").
Proof.
  apply (proj2 (normalize_all_or_nothing "2025-01-03"
                  [record_A; record_no_id; record_B])).
  reflexivity.
Defined.

(** X5. [getFileTypeFromUrl] looks for its PDF and DOC markers anywhere in
    the string, not at its end: every string that contains ".pdf" is a pdf,
    and every string without ".pdf" that contains ".doc" is a docx, whatever
    follows the marker. *)
Theorem getFileTypeFromUrl_markers (a b : string) :
  getFileTypeFromUrl (a ++ ".pdf" ++ b) = pdf
  /\ (Js.includes (a ++ ".doc" ++ b) ".pdf" = false ->
      getFileTypeFromUrl (a ++ ".doc" ++ b) = docx).
Proof.
  assert (Hne : forall m, m <> "" -> Js.truthy (Js.str (a ++ m ++ b)) = true).
  { intros m Hm; apply truthy_str.
    destruct a; simpl; [|discriminate].
    destruct m; simpl; [congruence | discriminate]. }
  split.
  - unfold getFileTypeFromUrl.
    rewrite (Hne ".pdf" ltac:(discriminate)), (includes_app a ".pdf" b); reflexivity.
  - intros Hnp; unfold getFileTypeFromUrl.
    rewrite (Hne ".doc" ltac:(discriminate)), Hnp, (includes_app a ".doc" b).
    rewrite orb_true_r; reflexivity.
Qed.

Lemma getFileTypeFromUrl_markers_witness :
  getFileTypeFromUrl "https://x.org/notes.docs/readme" = docx.
Proof.
  apply (proj2 (getFileTypeFromUrl_markers "https://x.org/notes" "s/readme")).
  reflexivity.
Defined.

(** ** IngestionController, continued *)

Lemma trimStart_all_space (s : string) :
  all_space s = true -> Js.trimStart s = "".
Proof.
  induction s as [|c s IH]; simpl; [reflexivity|].
  intros H; apply andb_true_iff in H; destruct H as [Hc Hs].
  rewrite Hc; exact (IH Hs).
Qed.

Lemma trim_all_space (s : string) : all_space s = true -> Js.trim s = "".
Proof. intros H; unfold Js.trim; rewrite (trimStart_all_space s H); reflexivity. Qed.

(** X6. A draft whose title is empty or white space only is refused whatever
    its type and content: the toast is "Please enter a title", no request is
    issued and nothing else in the component changes. *)
Theorem submit_blank_title (s : System) :
  all_space (d_title (newNote (hub s))) = true ->
  step Submit s
  = Some {| hub := hub s |> console_error "Validation failed: No title"
                         |> toast (toast_error "Please enter a title");
            inflight := inflight s |}.
Proof.
  intros H; unfold step, spawn_opt, handleSubmit_start.
  rewrite (trim_all_space _ H); reflexivity.
Qed.

Lemma submit_blank_title_witness :
  step Submit (editing draft_blank_title)
  = Some {| hub := hub (editing draft_blank_title)
                   |> console_error "Validation failed: No title"
                   |> toast (toast_error "Please enter a title");
            inflight := [] |}.
Proof. apply (submit_blank_title (editing draft_blank_title)); reflexivity. Defined.

Ltac refused :=
  eexists; split; [reflexivity|]; split; [reflexivity|]; split; [reflexivity|];
  left; split; [reflexivity|]; split; [reflexivity|]; eexists; reflexivity.

Ltac uploads :=
  eexists; split; [reflexivity|]; split; [reflexivity|]; split; [reflexivity|];
  right; split; [reflexivity|]; split; [reflexivity|]; split; [reflexivity|];
  repeat split; intros; try discriminate; try congruence;
  try (apply truthy_str; symmetry; assumption); try (symmetry; assumption).

Lemma handleSubmit_start_outcome (s : System) :
  exists s', step Submit s = Some s'
    /\ notes (hub s') = notes (hub s)
    /\ newNote (hub s') = newNote (hub s)
    /\ ((inflight s' = inflight s
         /\ isSubmitting (hub s') = isSubmitting (hub s)
         /\ exists m, toasts (hub s') = toast_error m :: toasts (hub s))
        \/ (inflight s'
            = (inflight s
               ++ [handleSubmit_await_uploadFile (buildFormData (newNote (hub s)))])%list
            /\ isSubmitting (hub s') = true
            /\ toasts (hub s') = toasts (hub s)
            /\ accepted (newNote (hub s)))).
Proof.
  unfold step, spawn_opt, handleSubmit_start, accepted.
  remember (Js.truthy (Js.str (Js.trim (d_title (newNote (hub s)))))) as bt eqn:Et.
  remember (Js.truthy (Js.str (d_content (newNote (hub s))))) as bc eqn:Ec.
  remember (Js.truthy (Js.str (Js.trim (d_content (newNote (hub s)))))) as btc eqn:Etc.
  remember (Js.startsWith (Js.trim (d_content (newNote (hub s)))) "http") as bh eqn:Eh.
  destruct (d_type (newNote (hub s))) eqn:Ety, (d_file (newNote (hub s))) eqn:Ef,
    bt, bc, btc, bh; simpl; first [refused | uploads].
Qed.

(** X7. A submission does one of two things.  Either it is refused: exactly
    one error toast is raised, no request is issued, and the list, the draft
    and the submitting flag are as before.  Or exactly one upload request is
    issued, carrying the form data of the draft, the submitting flag is set
    and no toast is raised; this happens only for a draft with a title that
    is not blank and with the content or file its type asks for. *)
Theorem submit_refuses_or_uploads (s : System) :
  exists s', step Submit s = Some s'
    /\ notes (hub s') = notes (hub s)
    /\ newNote (hub s') = newNote (hub s)
    /\ ((inflight s' = inflight s
         /\ isSubmitting (hub s') = isSubmitting (hub s)
         /\ exists m, toasts (hub s') = toast_error m :: toasts (hub s))
        \/ (inflight s'
            = (inflight s
               ++ [handleSubmit_await_uploadFile (buildFormData (newNote (hub s)))])%list
            /\ isSubmitting (hub s') = true
            /\ toasts (hub s') = toasts (hub s)
            /\ accepted (newNote (hub s)))).
Proof. exact (handleSubmit_start_outcome s). Qed.

(** X8. The form data built from a draft never repeats a key.  It always
    carries the trimmed title and the type; it carries a file exactly when
    the draft is of type FILE and has one; a content entry, when present, is
    the trimmed content and is not empty; and it carries tags exactly when
    the draft has some. *)
Theorem buildFormData_entries (d : Draft) :
  NoDup (map fst (buildFormData d))
  /\ In ("title", form_text (Js.trim (d_title d))) (buildFormData d)
  /\ In ("type", form_text (DraftType_name (d_type d))) (buildFormData d)
  /\ (forall f, In ("file", form_file f) (buildFormData d)
                <-> d_type d = FILE /\ d_file d = Some f)
  /\ (forall c, In ("content", form_text c) (buildFormData d) ->
                c = Js.trim (d_content d) /\ c <> "")
  /\ (has_key "tags" (buildFormData d) = true <-> d_tags d <> []).
Proof.
  unfold buildFormData.
  remember (Js.truthy (Js.str (d_content d))) as bc eqn:Ec.
  remember (Js.truthy (Js.str (Js.trim (d_content d)))) as btc eqn:Etc.
  assert (Hne : btc = true -> Js.trim (d_content d) <> "")
    by (intros ->; apply truthy_str; symmetry; exact Etc).
  clear Ec Etc.
  destruct (d_type d), (d_file d), (d_tags d), bc, btc; simpl.
  all: split; [repeat (constructor; [simpl; intuition discriminate|]); constructor|].
  all: split; [tauto|].
  all: split; [tauto|].
  all: (split; [intros f0; split;
            [intros H; repeat (destruct H as [H | H]; try discriminate H);
             try contradiction; injection H as <-; split; reflexivity
            |intros [H1 H2]; try discriminate H1; try discriminate H2;
             injection H2 as <-; tauto]|]).
  all: (split; [intros c H; repeat (destruct H as [H | H]; try discriminate H);
                try contradiction; injection H as <-;
                (split; [reflexivity | apply Hne; reflexivity])|]).
  all: split; intros H; try discriminate H; try reflexivity; try congruence.
Qed.

Lemma buildFormData_entries_witness :
  In ("file", form_file limit_file) (buildFormData draft_file).
Proof.
  destruct (buildFormData_entries draft_file) as (_ & _ & _ & Hf & _).
  apply Hf; split; reflexivity.
Defined.

Lemma prefix_cons (a b : ascii) (p s : string) :
  String.prefix (String a p) (String b s)
  = if ascii_dec a b then String.prefix p s else false.
Proof. reflexivity. Qed.

Lemma before_dot_no_dot (name : string) :
  Js.includes (before_dot name) "." = false.
Proof.
  induction name as [|c name IH]; [reflexivity|].
  cbn [before_dot].
  destruct (Ascii.eqb_spec c "."%char) as [->|Hc]; [reflexivity|].
  rewrite includes_eq, IH, prefix_cons.
  destruct (ascii_dec "."%char c); [congruence|reflexivity].
Qed.

Lemma before_dot_prefix (name : string) :
  exists rest, name = before_dot name ++ rest
               /\ (rest = "" \/ String.prefix "." rest = true).
Proof.
  induction name as [|c name (rest & E & Hr)]; simpl.
  - exists ""; split; [reflexivity | left; reflexivity].
  - destruct (Ascii.eqb_spec c "."%char) as [->|Hc].
    + exists (String "."%char name); split; [reflexivity|].
      right; simpl; destruct name; reflexivity.
    + exists rest; split; [simpl; f_equal; exact E | exact Hr].
Qed.

(** X9. The file input refuses a file of more than 10 MiB with a toast and
    leaves the draft alone; a file of at most 10 MiB (the limit included)
    becomes the draft's file without a toast, the other fields are kept, and
    an empty title is replaced by the file name up to its first dot. *)
Theorem handleFileUpload_limit (file : File) (h : Hub) :
  ((10 * 1024 * 1024 < file_size file)%Z ->
   handleFileUpload file h
   = h |> toast (toast_error "File size should be less than 10MB"))
  /\ ((file_size file <= 10 * 1024 * 1024)%Z ->
      toasts (handleFileUpload file h) = toasts h
      /\ d_file (newNote (handleFileUpload file h)) = Some file
      /\ (d_title (newNote h) <> "" ->
          d_title (newNote (handleFileUpload file h)) = d_title (newNote h))
      /\ (d_title (newNote h) = "" ->
          d_title (newNote (handleFileUpload file h)) = before_dot (file_name file)
          /\ Js.includes (before_dot (file_name file)) "." = false
          /\ exists rest, file_name file = before_dot (file_name file) ++ rest
                          /\ (rest = "" \/ String.prefix "." rest = true))
      /\ d_content (newNote (handleFileUpload file h)) = d_content (newNote h)
      /\ d_type (newNote (handleFileUpload file h)) = d_type (newNote h)
      /\ d_tags (newNote (handleFileUpload file h)) = d_tags (newNote h)
      /\ d_subject (newNote (handleFileUpload file h)) = d_subject (newNote h)
      /\ is_public (newNote (handleFileUpload file h)) = is_public (newNote h)
      /\ notes (handleFileUpload file h) = notes h).
Proof.
  unfold handleFileUpload; split; intros H.
  - apply Z.ltb_lt in H; rewrite H; reflexivity.
  - assert (E : (10 * 1024 * 1024 <? file_size file)%Z = false)
      by (apply Z.ltb_ge; exact H).
    rewrite E; simpl.
    split; [reflexivity|]. split; [reflexivity|].
    split; [|split; [|repeat split]].
    + intros Ht; unfold Js.or.
      rewrite (proj2 (truthy_str _) Ht); reflexivity.
    + intros ->; simpl; split; [reflexivity|].
      split; [apply before_dot_no_dot | apply before_dot_prefix].
Qed.

Lemma handleFileUpload_limit_witness :
  d_file (newNote (handleFileUpload limit_file initial_hub)) = Some limit_file
  /\ d_title (newNote (handleFileUpload limit_file initial_hub)) = "lecture"
  /\ handleFileUpload big_file initial_hub
     = initial_hub |> toast (toast_error "File size should be less than 10MB").
Proof.
  destruct (handleFileUpload_limit limit_file initial_hub) as [_ H].
  destruct (H ltac:(simpl; lia)) as (_ & Hf & _ & Ht & _).
  split; [exact Hf|]. split; [exact (proj1 (Ht eq_refl))|].
  apply (proj1 (handleFileUpload_limit big_file initial_hub)); simpl; lia.
Defined.

(** ** The upload form *)

Lemma existsb_eqb_In (tag : string) (tags : list string) :
  existsb (String.eqb tag) tags = true <-> In tag tags.
Proof.
  rewrite existsb_exists; split.
  - intros (x & Hx & E); apply String.eqb_eq in E; subst; exact Hx.
  - intros H; exists tag; split; [exact H | apply String.eqb_refl].
Qed.

(** X10. Clicking a tag button flips the membership of that tag in the
    draft's tags and of no other tag, and a list of tags without duplicates
    stays without duplicates. *)
Theorem toggleTag_flips (tag : string) (tags : list string) :
  NoDup tags ->
  NoDup (toggleTag tag tags)
  /\ (In tag (toggleTag tag tags) <-> ~ In tag tags)
  /\ (forall t, t <> tag -> (In t (toggleTag tag tags) <-> In t tags)).
Proof.
  intros Hnd; unfold toggleTag.
  destruct (existsb (String.eqb tag) tags) eqn:E.
  - apply existsb_eqb_In in E.
    split; [apply NoDup_filter; exact Hnd|]. split.
    + rewrite filter_In, String.eqb_refl; simpl; split; [intros [_ H]; discriminate | tauto].
    + intros t Ht; rewrite filter_In.
      destruct (String.eqb_spec t tag); [contradiction|]; simpl; tauto.
  - assert (Hn : ~ In tag tags).
    { intros H; apply existsb_eqb_In in H; congruence. }
    split; [|split].
    + apply NoDup_app; [exact Hnd | repeat constructor; simpl; tauto|].
      intros a Ha [<- | []]; contradiction.
    + rewrite in_app_iff; simpl; tauto.
    + intros t Ht; rewrite in_app_iff; simpl; split; [|tauto].
      intros [H | [H | []]]; [exact H | congruence].
Qed.

Lemma toggleTag_flips_witness :
  NoDup (toggleTag "AI" ["Algorithms"; "AI"; "ML"])
  /\ ~ In "AI" (toggleTag "AI" ["Algorithms"; "AI"; "ML"]).
Proof.
  destruct (toggleTag_flips "AI" ["Algorithms"; "AI"; "ML"]) as (H1 & H2 & _).
  - repeat constructor; simpl; intuition discriminate.
  - split; [exact H1|].
    intros H; apply H2 in H; apply H; simpl; tauto.
Defined.

Lemma trim_nonempty (s : string) : Js.trim s <> "" -> s <> "".
Proof. intros H ->; apply H; reflexivity. Qed.

Lemma form_edit_exclusive (e : FormEdit) (h : Hub) :
  rendered e h = true ->
  draft_exclusive (newNote h) -> draft_exclusive (newNote (form_edit e h)).
Proof.
  unfold draft_exclusive; intros Hr [H1 H2]; destruct e; simpl in *; auto.
  - destruct type; simpl; split; congruence.
  - split; [|exact H2].
    intros Hf; rewrite Hf in Hr; discriminate.
  - unfold handleFileUpload.
    destruct (10 * 1024 * 1024 <? file_size file)%Z; simpl; [auto|].
    split; [exact H1|].
    intros Hn; destruct (d_type (newNote h)); try discriminate; congruence.
Qed.

Lemma exclusive_form_data (d : Draft) :
  draft_exclusive d -> accepted d ->
  if DraftType_eqb (d_type d) FILE
  then has_key "file" (buildFormData d) = true
       /\ has_key "content" (buildFormData d) = false
  else has_key "content" (buildFormData d) = true
       /\ has_key "file" (buildFormData d) = false.
Proof.
  intros [E1 E2] (_ & Al & At & Af); unfold buildFormData.
  destruct (d_type d) eqn:Ety; simpl DraftType_eqb; cbv iota.
  - pose proof (At eq_refl) as Hc.
    rewrite (proj2 (truthy_str _) Hc), (proj2 (truthy_str _) (trim_nonempty _ Hc)).
    destruct (d_tags d); split; reflexivity.
  - destruct (Al eq_refl) as [Hc Hh].
    assert (Ht : Js.trim (d_content d) <> "").
    { intros E; rewrite E in Hh; discriminate. }
    rewrite (proj2 (truthy_str _) Hc), (proj2 (truthy_str _) Ht).
    destruct (d_tags d); split; reflexivity.
  - rewrite (E1 eq_refl).
    destruct (d_file d) as [f|]; [|exfalso; exact (Af eq_refl eq_refl)].
    destruct (d_tags d); split; reflexivity.
Qed.

(** X11. Through the controls of the upload form a draft never holds both a
    file and a content: starting from a draft where a FILE draft has no
    content and any other draft has no file, every sequence of edits made
    with the rendered controls keeps it so.  The form data of such a draft,
    once it passes the checks of the submission, carries the file and no
    content for the type FILE, and the content and no file for the other
    types. *)
Theorem form_edits_exclusive (es : list FormEdit) (h h' : Hub) :
  draft_exclusive (newNote h) ->
  run_edits es h = Some h' ->
  draft_exclusive (newNote h')
  /\ (accepted (newNote h') ->
      if DraftType_eqb (d_type (newNote h')) FILE
      then has_key "file" (buildFormData (newNote h')) = true
           /\ has_key "content" (buildFormData (newNote h')) = false
      else has_key "content" (buildFormData (newNote h')) = true
           /\ has_key "file" (buildFormData (newNote h')) = false).
Proof.
  revert h; induction es as [|e es IH]; simpl; intros h Hex Hrun.
  - injection Hrun as <-; split; [exact Hex | apply exclusive_form_data; exact Hex].
  - destruct (rendered e h) eqn:Hr; [|discriminate].
    exact (IH _ (form_edit_exclusive e h Hr Hex) Hrun).
Qed.

Lemma form_edits_exclusive_witness :
  run_edits form_session initial_hub = Some after_form_session
  /\ draft_exclusive (newNote after_form_session)
  /\ has_key "content" (buildFormData (newNote after_form_session)) = true
  /\ has_key "file" (buildFormData (newNote after_form_session)) = false.
Proof.
  assert (Hrun : run_edits form_session initial_hub = Some after_form_session)
    by (vm_compute; reflexivity).
  assert (Hex : draft_exclusive (newNote initial_hub))
    by (split; [reflexivity | intros _; reflexivity]).
  destruct (form_edits_exclusive form_session initial_hub after_form_session Hex Hrun)
    as [H1 H2].
  split; [exact Hrun|]. split; [exact H1|].
  apply H2; repeat split; vm_compute; congruence.
Defined.

(** ** Busy flags *)

Lemma filter_count_app {A} (p : A -> bool) (l l' : list A) :
  List.length (filter p (l ++ l'))
  = (List.length (filter p l) + List.length (filter p l'))%nat.
Proof. rewrite filter_app, length_app; reflexivity. Qed.

Lemma filter_count_remove_true {A} (p : A -> bool) (k : nat) (l : list A) (t : A) :
  nth_error l k = Some t -> p t = true ->
  List.length (filter p l) = S (List.length (filter p (remove_nth k l))).
Proof.
  revert k; induction l as [|y l IH]; intros [|k]; simpl; try discriminate.
  - intros E Ht; injection E as ->; rewrite Ht; reflexivity.
  - intros E Ht; specialize (IH k E Ht); destruct (p y); simpl; lia.
Qed.

Lemma filter_count_remove_false {A} (p : A -> bool) (k : nat) (l : list A) (t : A) :
  nth_error l k = Some t -> p t = false ->
  List.length (filter p (remove_nth k l)) = List.length (filter p l).
Proof.
  revert k; induction l as [|y l IH]; intros [|k]; simpl; try discriminate.
  - intros E Ht; injection E as ->; rewrite Ht; reflexivity.
  - intros E Ht; specialize (IH k E Ht); destruct (p y); simpl; lia.
Qed.

Lemma filter_count_pos {A} (p : A -> bool) (l : list A) :
  (0 < List.length (filter p l))%nat <-> exists t, In t l /\ p t = true.
Proof.
  split.
  - destruct (filter p l) as [|t r] eqn:E; simpl; [lia|].
    intros _; exists t; apply filter_In; rewrite E; left; reflexivity.
  - intros (t & Hin & Hp).
    assert (H : In t (filter p l)) by (apply filter_In; auto).
    destruct (filter p l); [contradiction | simpl; lia].
Qed.

Lemma busy_inv_step (ev : Event) (s s' : System) :
  busy_inv s -> enabled ev s = true -> step ev s = Some s' -> busy_inv s'.
Proof.
  unfold busy_inv, count_summary, count_submit.
  intros [I1 I2] Hen Hstep; destruct ev; simpl in Hstep;
    try (injection Hstep as <-; simpl; auto; fail).
  - (* Mount *)
    injection Hstep as <-; simpl; rewrite !filter_count_app; simpl; lia.
  - (* Search *)
    injection Hstep as <-; unfold spawn, handleSearch_start.
    destruct (String.length (Js.trim query) <? 2)%nat; simpl;
      rewrite !filter_count_app; simpl; lia.
  - (* GenerateSummary *)
    injection Hstep as <-; simpl in Hen; apply negb_true_iff in Hen.
    rewrite Hen in I1; simpl; rewrite !filter_count_app; simpl; lia.
  - (* SelectFile *)
    injection Hstep as <-; unfold handleFileUpload.
    destruct (10 * 1024 * 1024 <? file_size file)%Z; simpl; auto.
  - (* Submit *)
    injection Hstep as <-; simpl in Hen; apply negb_true_iff in Hen.
    rewrite Hen in I2.
    destruct (handleSubmit_start_outcome s) as (s' & Hs & _ & _ & Hcase).
    simpl in Hs; injection Hs as Hs; rewrite Hs.
    destruct Hcase as [(Hfl & Hsub & _) | (Hfl & Hsub & _)]; rewrite Hfl, Hsub.
    + rewrite Hen; split; [|exact I2].
      rewrite I1; rewrite <- Hs; unfold spawn_opt, handleSubmit_start.
      repeat match goal with
             | |- context [if ?c then _ else _] =>
                 lazymatch c with
                 | isGeneratingSummary _ => fail
                 | _ => destruct c
                 end
             end; reflexivity.
    + rewrite !filter_count_app; simpl; split; [|lia].
      rewrite I1; rewrite <- Hs; unfold spawn_opt, handleSubmit_start.
      repeat match goal with
             | |- context [if ?c then _ else _] =>
                 lazymatch c with
                 | isGeneratingSummary _ => fail
                 | _ => destruct c
                 end
             end; simpl; lia.
  - (* Settle *)
    destruct (nth_error (inflight s) k) as [t|] eqn:Hk; [|discriminate].
    destruct (resume now t r (hub s)) as [[h' next]|] eqn:Hr; [|discriminate].
    injection Hstep as <-; unfold spawn_opt; cbn [hub inflight fst snd].
    destruct t; destruct r as [rn | rs | ru]; simpl in Hr; try discriminate.
    + (* fetchNotes *)
      injection Hr as <- <-.
      rewrite (filter_count_remove_false is_summary_task k _ _ Hk eq_refl).
      rewrite (filter_count_remove_false is_submit_task k _ _ Hk eq_refl).
      unfold fetchNotes_resume; destruct (bind (getNotes rn) _); auto.
    + injection Hr as <- <-.
      rewrite (filter_count_remove_false is_summary_task k _ _ Hk eq_refl).
      rewrite (filter_count_remove_false is_submit_task k _ _ Hk eq_refl).
      unfold handleSearch_resume_getNotes; destruct (bind (getNotes rn) _); auto.
    + injection Hr as <- <-.
      rewrite (filter_count_remove_false is_summary_task k _ _ Hk eq_refl).
      rewrite (filter_count_remove_false is_submit_task k _ _ Hk eq_refl).
      unfold handleSearch_resume_searchResources;
        destruct (bind (searchResources rn) _); auto.
    + (* summary *)
      injection Hr as <- <-.
      pose proof (filter_count_remove_true is_summary_task k _ _ Hk eq_refl) as Hc.
      rewrite (filter_count_remove_false is_submit_task k _ _ Hk eq_refl).
      destruct (isGeneratingSummary (hub s)); [|lia].
      unfold handleGenerateSummary_resume; destruct (summarizeText rs); simpl;
        split; try lia; exact I2.
    + (* upload *)
      pose proof (filter_count_remove_true is_submit_task k _ _ Hk eq_refl) as Hc.
      rewrite <- (filter_count_remove_false is_summary_task k _ _ Hk eq_refl) in I1.
      destruct (isSubmitting (hub s)) eqn:Hsub; [|lia].
      injection Hr as Hr; revert Hr; unfold handleSubmit_resume_uploadFile.
      destruct (bind (uploadFile ru) _) as [e | [response n]];
        intros E; injection E as <- <-; simpl.
      * split; [exact I1 | lia].
      * rewrite !filter_count_app, Hsub; simpl; split; [lia | lia].
    + (* refresh *)
      injection Hr as <- <-.
      pose proof (filter_count_remove_true is_submit_task k _ _ Hk eq_refl) as Hc.
      rewrite <- (filter_count_remove_false is_summary_task k _ _ Hk eq_refl) in I1.
      destruct (isSubmitting (hub s)); [|lia].
      unfold handleSubmit_resume_getNotes; destruct (bind (getNotes rn) _); simpl;
        split; try lia; exact I1.
Qed.

Lemma busy_inv_initial : busy_inv initial.
Proof. split; reflexivity. Qed.

Lemma busy_inv_run (evs : list Event) (s s' : System) :
  busy_inv s -> run_enabled evs s = Some s' -> busy_inv s'.
Proof.
  revert s; induction evs as [|ev evs IH]; simpl; intros s I E.
  - injection E as <-; exact I.
  - destruct (enabled ev s) eqn:Hen; [|discriminate].
    destruct (step ev s) as [s1|] eqn:Hs; [|discriminate].
    exact (IH s1 (busy_inv_step ev s s1 I Hen Hs) E).
Qed.

(** X12. In every run the page lets through, the submit button is disabled
    ([isSubmitting]) exactly while a submission is in flight, waiting for
    its upload or for its refresh, and at most one submission is in flight
    at any time. *)
Theorem submitting_iff_in_flight (evs : list Event) (s : System) :
  run_enabled evs initial = Some s ->
  (isSubmitting (hub s) = true
   <-> exists t, In t (inflight s) /\ is_submit_task t = true)
  /\ (count_submit (inflight s) <= 1)%nat.
Proof.
  intros Hrun.
  destruct (busy_inv_run evs initial s busy_inv_initial Hrun) as [_ I].
  unfold count_submit in *; rewrite <- filter_count_pos.
  destruct (isSubmitting (hub s)); rewrite I; split; try lia;
    split; intros H; try reflexivity; try lia; discriminate.
Qed.

Lemma submitting_iff_in_flight_witness :
  run_enabled busy_run initial = Some busy_system
  /\ isSubmitting (hub busy_system) = true
  /\ exists t, In t (inflight busy_system) /\ is_submit_task t = true.
Proof.
  assert (H : run_enabled busy_run initial = Some busy_system)
    by (vm_compute; reflexivity).
  split; [exact H|].
  assert (Hs : isSubmitting (hub busy_system) = true) by (vm_compute; reflexivity).
  split; [exact Hs|].
  exact (proj1 (proj1 (submitting_iff_in_flight busy_run busy_system H)) Hs).
Defined.

(** X13. In every run the page lets through, the summary spinner
    ([isGeneratingSummary]) is on exactly while a summary request is in
    flight, and at most one summary request is in flight at any time. *)
Theorem generating_iff_in_flight (evs : list Event) (s : System) :
  run_enabled evs initial = Some s ->
  (isGeneratingSummary (hub s) = true
   <-> exists t, In t (inflight s) /\ is_summary_task t = true)
  /\ (count_summary (inflight s) <= 1)%nat.
Proof.
  intros Hrun.
  destruct (busy_inv_run evs initial s busy_inv_initial Hrun) as [I _].
  unfold count_summary in *; rewrite <- filter_count_pos.
  destruct (isGeneratingSummary (hub s)); rewrite I; split; try lia;
    split; intros H; try reflexivity; try lia; discriminate.
Qed.

Lemma generating_iff_in_flight_witness :
  run_enabled busy_run initial = Some busy_system
  /\ isGeneratingSummary (hub busy_system) = true
  /\ exists t, In t (inflight busy_system) /\ is_summary_task t = true.
Proof.
  assert (H : run_enabled busy_run initial = Some busy_system)
    by (vm_compute; reflexivity).
  split; [exact H|].
  assert (Hs : isGeneratingSummary (hub busy_system) = true)
    by (vm_compute; reflexivity).
  split; [exact Hs|].
  exact (proj1 (proj1 (generating_iff_in_flight busy_run busy_system H)) Hs).
Defined.

(** ** Outcome of a submission *)

Lemma Z_to_string_nonempty (z : Z) : Js.Z_to_string z <> "".
Proof.
  unfold Js.Z_to_string.
  destruct (Z.to_int z) as [d | d]; [|simpl; discriminate].
  destruct d; simpl; discriminate.
Qed.

Lemma to_string_truthy (v : Js.value) :
  Js.truthy v = true -> Js.to_string v <> "".
Proof.
  destruct v as [| |b|z|s]; simpl; try discriminate.
  - intros ->; discriminate.
  - intros _; apply Z_to_string_nonempty.
  - intros H; apply (proj1 (truthy_str s)); exact H.
Qed.

Lemma or_fallback_truthy (a : Js.value) (fallback : string) :
  fallback <> "" -> Js.truthy (Js.or a (Js.str fallback)) = true.
Proof.
  intros H; unfold Js.or; destruct (Js.truthy a) eqn:E; [exact E|].
  apply truthy_str; exact H.
Qed.

Lemma uploadFile_rejected (e : AxiosError) :
  exists m, uploadFile (Rejected e) = inl (Error m) /\ m <> ""
            /\ forall d text, ax_response e = Some (Some d) ->
                              detail d = Js.str text -> text <> "" -> m = text.
Proof.
  unfold uploadFile; destruct (ax_response e) as [d|] eqn:Er.
  - eexists; split; [reflexivity|]; split.
    + apply to_string_truthy, or_fallback_truthy; discriminate.
    + intros d' text E Hd Ht; injection E as ->; rewrite Hd.
      unfold Js.or; rewrite (proj2 (truthy_str text) Ht); simpl.
      rewrite (str_truthy_eqb text Ht); reflexivity.
  - destruct (ax_request e); eexists; (split; [reflexivity|]);
      split; try discriminate.
Qed.

(** X14. How a submission ends.  When the upload request fails, one error
    toast is raised whose text is the message [uploadFile] built, which is
    never empty and is the server's detail verbatim when that is a non-empty
    string; the draft, the open form and the list stay as they are and the
    submit button is enabled again.  When the upload succeeded, then whatever
    the outcome of the refresh, the form is closed, the draft is reset to the
    empty draft, a success toast with the server's message (or "Note saved
    successfully!") is raised and the submit button is enabled again. *)
Theorem submission_outcome (now : string) (h : Hub) :
  (forall e,
     exists m,
       handleSubmit_resume_uploadFile now (Rejected e) h
       = (handleSubmit_catch (Error m) h, None)
       /\ m <> ""
       /\ toasts (handleSubmit_catch (Error m) h) = toast_error m :: toasts h
       /\ newNote (handleSubmit_catch (Error m) h) = newNote h
       /\ isUploadModalOpen (handleSubmit_catch (Error m) h) = isUploadModalOpen h
       /\ notes (handleSubmit_catch (Error m) h) = notes h
       /\ isSubmitting (handleSubmit_catch (Error m) h) = false
       /\ forall d text, ax_response e = Some (Some d) ->
                         detail d = Js.str text -> text <> "" -> m = text)
  /\ (forall response r,
        newNote (handleSubmit_resume_getNotes now response r h) = empty_draft
        /\ isUploadModalOpen (handleSubmit_resume_getNotes now response r h) = false
        /\ isSubmitting (handleSubmit_resume_getNotes now response r h) = false
        /\ toasts (handleSubmit_resume_getNotes now response r h)
           = toast_success
               (Js.to_string (Js.or (resp_message response)
                                    (Js.str "Note saved successfully!")))
             :: toasts h).
Proof.
  split.
  - intros e; destruct (uploadFile_rejected e) as (m & Hm & Hne & Hd).
    exists m; unfold handleSubmit_resume_uploadFile; rewrite Hm; simpl bind.
    split; [reflexivity|]. split; [exact Hne|]. split.
    + unfold handleSubmit_catch, Js.or; cbn [exn_message].
      rewrite (proj2 (truthy_str m) Hne); reflexivity.
    + repeat split; exact Hd.
  - intros response r; unfold handleSubmit_resume_getNotes.
    destruct (bind (getNotes r) _); repeat split.
Qed.

Lemma submission_outcome_witness :
  exists m,
    handleSubmit_resume_uploadFile "2025-01-03" (Rejected conflict) (hub submitting)
    = (handleSubmit_catch (Error m) (hub submitting), None)
    /\ m = "A note with this title exists".
Proof.
  destruct (proj1 (submission_outcome "2025-01-03" (hub submitting)) conflict)
    as (m & Hm & _ & _ & _ & _ & _ & _ & Hd).
  exists m; split; [exact Hm|].
  apply (Hd _ "A note with this title exists" eq_refl eq_refl); discriminate.
Defined.

(** ** What can change the list *)

(** X15. The list of notes changes in two ways only: a response to a list,
    search or refresh request whose records all normalize replaces it by the
    normalized records, and a successful upload puts the note built from its
    response in front.  Every other event, every failed request and every
    response with a record that does not normalize leaves the list as it
    is. *)
Theorem notes_change_only_by (ev : Event) (s s' : System) :
  step ev s = Some s' ->
  notes (hub s') = notes (hub s)
  \/ (exists k now records,
        ev = Settle k now (notes_reply (Fulfilled records))
        /\ normalize now records = inr (notes (hub s')))
  \/ (exists k now response n,
        ev = Settle k now (upload_reply (Fulfilled response))
        /\ uploadedNote now response = inr n
        /\ notes (hub s') = n :: notes (hub s)).
Proof.
  destruct ev; simpl; intros Hstep;
    try (injection Hstep as <-; left; reflexivity).
  - (* Search *)
    injection Hstep as <-; left; unfold spawn, handleSearch_start.
    destruct (String.length (Js.trim query) <? 2)%nat; reflexivity.
  - (* SelectFile *)
    injection Hstep as <-; left; unfold handleFileUpload.
    destruct (10 * 1024 * 1024 <? file_size file)%Z; reflexivity.
  - (* Submit *)
    destruct (handleSubmit_start_outcome s) as (s1 & Hs & Hn & _).
    simpl in Hs; rewrite Hs in Hstep; injection Hstep as <-; left; exact Hn.
  - (* Settle *)
    destruct (nth_error (inflight s) k) as [t|]; [|discriminate].
    destruct (resume now t r (hub s)) as [[h' next]|] eqn:Hr; [|discriminate].
    injection Hstep as <-; unfold spawn_opt; cbn [hub fst].
    destruct t; destruct r as [rn | rs | ru]; simpl in Hr; try discriminate.
    + injection Hr as <- <-; unfold fetchNotes_resume.
      destruct rn as [records | e]; simpl.
      * destruct (normalize now records) as [x | ns] eqn:En; simpl;
          [left; reflexivity|].
        right; left; exists k, now, records; split; [reflexivity | exact En].
      * destruct (api_catch_throws (A := list RawNote) "Failed to fetch notes" e)
          as [x Hx]; rewrite Hx; left; reflexivity.
    + injection Hr as <- <-; unfold handleSearch_resume_getNotes.
      destruct rn as [records | e]; simpl.
      * destruct (normalize now records) as [x | ns] eqn:En; simpl;
          [left; reflexivity|].
        right; left; exists k, now, records; split; [reflexivity | exact En].
      * destruct (api_catch_throws (A := list RawNote) "Failed to fetch notes" e)
          as [x Hx]; rewrite Hx; left; reflexivity.
    + injection Hr as <- <-; unfold handleSearch_resume_searchResources.
      destruct rn as [records | e]; simpl.
      * destruct (normalize now records) as [x | ns] eqn:En; simpl;
          [left; reflexivity|].
        right; left; exists k, now, records; split; [reflexivity | exact En].
      * destruct (api_catch_throws (A := list RawNote) "Failed to search resources" e)
          as [x Hx]; rewrite Hx; left; reflexivity.
    + injection Hr as <- <-; left; unfold handleGenerateSummary_resume.
      destruct (summarizeText rs); reflexivity.
    + injection Hr as Hr; revert Hr; unfold handleSubmit_resume_uploadFile.
      destruct ru as [response | e].
      * simpl uploadFile; simpl bind at 1.
        destruct (uploadedNote now response) as [x | n] eqn:En; simpl;
          intros E; injection E as <- <-; [left; reflexivity|].
        right; right; exists k, now, response, n; auto.
      * destruct (uploadFile_rejected e) as (m & Hm & _); rewrite Hm; simpl.
        intros E; injection E as <- <-; left; reflexivity.
    + injection Hr as <- <-; unfold handleSubmit_resume_getNotes.
      destruct rn as [records | e]; simpl.
      * destruct (normalize now records) as [x | ns] eqn:En; simpl;
          [left; reflexivity|].
        right; left; exists k, now, records; split; [reflexivity | exact En].
      * destruct (api_catch_throws (A := list RawNote) "Failed to fetch notes" e)
          as [x Hx]; rewrite Hx; left; reflexivity.
Qed.

Lemma notes_change_only_by_witness :
  step (Settle 0 "2025-01-03" (upload_reply (Fulfilled response_text))) submitting
  = Some after_upload
  /\ exists n, uploadedNote "2025-01-03" response_text = inr n
               /\ notes (hub after_upload) = n :: notes (hub submitting).
Proof.
  assert (H : step (Settle 0 "2025-01-03" (upload_reply (Fulfilled response_text)))
                submitting = Some after_upload) by (vm_compute; reflexivity).
  split; [exact H|].
  destruct (notes_change_only_by _ _ _ H)
    as [E | [(k & now & records & E & _) | (k & now & response & n & E & Hn & Hl)]].
  - vm_compute in E; discriminate E.
  - discriminate E.
  - injection E as _ <- <-; exists n; split; [exact Hn | exact Hl].
Defined.

(** ** The file upload widget *)

Lemma allowed_In (f : File) :
  existsb (String.eqb (file_type f)) FileUpload.allowedTypes = true
  <-> In (file_type f) FileUpload.allowedTypes.
Proof. apply existsb_eqb_In. Qed.

(** X16. The upload widget sends a file to Cloudinary exactly when a file is
    selected, its MIME type is one of the four allowed ones and its size is
    at most 10 MiB, and the request carries that file.  In every other case
    nothing is sent and the selected file is kept; a file of a wrong type
    gets the type message even when it is also too large. *)
Theorem upload_gate (st : FileUpload.State) :
  (forall t, snd (FileUpload.handleUpload_start st) = Some t
             <-> exists f, FileUpload.file st = Some f /\ uploadable f
                           /\ t = FileUpload.handleUpload_await_uploadToCloudinary f)
  /\ FileUpload.file (fst (FileUpload.handleUpload_start st)) = FileUpload.file st
  /\ (forall f, FileUpload.file st = Some f ->
                ~ In (file_type f) FileUpload.allowedTypes ->
                snd (FileUpload.handleUpload_start st) = None
                /\ FileUpload.uploading (fst (FileUpload.handleUpload_start st)) = false
                /\ FileUpload.message (fst (FileUpload.handleUpload_start st))
                   = "❌ Invalid file type. Please upload PDF, DOCX, JPG, or PNG.").
Proof.
  unfold FileUpload.handleUpload_start, uploadable.
  destruct (FileUpload.file st) as [f|] eqn:Ef.
  - destruct (existsb (String.eqb (file_type f)) FileUpload.allowedTypes) eqn:Ea;
      simpl negb; cbv iota.
    + apply allowed_In in Ea.
      destruct (10 * 1024 * 1024 <? file_size f)%Z eqn:Es.
      * apply Z.ltb_lt in Es.
        split; [|split; [simpl; exact Ef|]].
        -- intros t; split; [discriminate|].
           intros (f' & E & [_ Hs] & _); injection E as <-; lia.
        -- intros f' E Hn; injection E as <-; contradiction.
      * apply Z.ltb_ge in Es.
        split; [|split; [simpl; exact Ef|]].
        -- intros t; split.
           ++ intros E; injection E as <-; exists f; auto.
           ++ intros (f' & E & _ & ->); injection E as <-; reflexivity.
        -- intros f' E Hn; injection E as <-; contradiction.
    + assert (Hn : ~ In (file_type f) FileUpload.allowedTypes).
      { intros H; apply allowed_In in H; congruence. }
      split; [|split; [simpl; exact Ef|]].
      * intros t; split; [discriminate|].
        intros (f' & E & [Ha _] & _); injection E as <-; contradiction.
      * intros f' E _; repeat split.
  - split; [|split; [simpl; exact Ef|]].
    + intros t; split; [discriminate|].
      intros (f' & E & _); discriminate.
    + intros f' E; discriminate.
Qed.

Lemma upload_gate_witness :
  snd (FileUpload.handleUpload_start
         (FileUpload.handleFileChange (Some text_file) FileUpload.initial_state))
  = None
  /\ FileUpload.message
       (fst (FileUpload.handleUpload_start
               (FileUpload.handleFileChange (Some text_file) FileUpload.initial_state)))
     = "❌ Invalid file type. Please upload PDF, DOCX, JPG, or PNG.".
Proof.
  destruct (upload_gate
              (FileUpload.handleFileChange (Some text_file) FileUpload.initial_state))
    as (_ & _ & H).
  destruct (H text_file eq_refl) as (H1 & _ & H3).
  - simpl; intuition discriminate.
  - split; [exact H1 | exact H3].
Defined.

(** X17. An upload whose two requests have settled is over and leaves the
    widget idle.  The selected file is cleared, with the success message,
    exactly when the file passed the checks, Cloudinary answered with an ok
    response and a secure url, and the note document was stored; in every
    other case the file stays selected, so the upload can be tried again,
    and the message is not the success message. *)
Theorem upload_ends
    (f : File) (st : FileUpload.State) (c : FileUpload.Fetched) (a : Try unit) :
  FileUpload.file st = Some f ->
  snd (FileUpload.handleUpload (Some c) (Some a) st) = None
  /\ FileUpload.uploading (fst (FileUpload.handleUpload (Some c) (Some a) st)) = false
  /\ ((uploadable f
       /\ (exists u, FileUpload.uploadToCloudinary c = inr u)
       /\ (exists x, a = inr x)) ->
      FileUpload.file (fst (FileUpload.handleUpload (Some c) (Some a) st)) = None
      /\ FileUpload.message (fst (FileUpload.handleUpload (Some c) (Some a) st))
         = "✅ File uploaded successfully!")
  /\ (~ (uploadable f
         /\ (exists u, FileUpload.uploadToCloudinary c = inr u)
         /\ (exists x, a = inr x)) ->
      FileUpload.file (fst (FileUpload.handleUpload (Some c) (Some a) st)) = Some f
      /\ FileUpload.message (fst (FileUpload.handleUpload (Some c) (Some a) st))
         <> "✅ File uploaded successfully!").
Proof.
  intros Ef.
  unfold FileUpload.handleUpload, FileUpload.handleUpload_start, uploadable.
  rewrite Ef.
  destruct (existsb (String.eqb (file_type f)) FileUpload.allowedTypes) eqn:Ea;
    simpl negb; cbv iota.
  2:{ assert (Hn : ~ In (file_type f) FileUpload.allowedTypes).
      { intros H; apply allowed_In in H; congruence. }
      simpl; split; [reflexivity|]; split; [reflexivity|]; split.
      - intros ([Ha _] & _); contradiction.
      - intros _; split; [exact Ef | discriminate]. }
  apply allowed_In in Ea.
  destruct (10 * 1024 * 1024 <? file_size f)%Z eqn:Es.
  { apply Z.ltb_lt in Es.
    simpl; split; [reflexivity|]; split; [reflexivity|]; split.
    - intros ([_ H] & _); lia.
    - intros _; split; [exact Ef | discriminate]. }
  apply Z.ltb_ge in Es.
  unfold FileUpload.handleUpload_resume_uploadToCloudinary.
  destruct (FileUpload.uploadToCloudinary c) as [e | u].
  { simpl; split; [reflexivity|]; split; [reflexivity|]; split.
    - intros (_ & [u Hu] & _); discriminate.
    - intros _; split; [exact Ef | discriminate]. }
  destruct a as [e | x].
  { simpl; split; [reflexivity|]; split; [reflexivity|]; split.
    - intros (_ & _ & [x Hx]); discriminate.
    - intros _; split; [exact Ef | discriminate]. }
  simpl; split; [reflexivity|]; split; [reflexivity|]; split.
  - intros _; split; reflexivity.
  - intros H; exfalso; apply H; repeat split; eauto.
Qed.

Lemma upload_ends_witness :
  FileUpload.file
    (fst (FileUpload.handleUpload (Some cloudinary_ok) (Some (inr tt))
            (FileUpload.handleFileChange (Some limit_file) FileUpload.initial_state)))
  = None
  /\ FileUpload.uploading
       (fst (FileUpload.handleUpload (Some cloudinary_ok) (Some (inr tt))
               (FileUpload.handleFileChange (Some limit_file) FileUpload.initial_state)))
     = false.
Proof.
  destruct (upload_ends limit_file
              (FileUpload.handleFileChange (Some limit_file) FileUpload.initial_state)
              cloudinary_ok (inr tt) eq_refl) as (_ & H2 & H3 & _).
  split; [|exact H2].
  apply H3; split; [|split].
  - split; [simpl; tauto | simpl; lia].
  - eexists; reflexivity.
  - eexists; reflexivity.
Defined.

(** ** The projects page *)

Lemma get_count_keys (k : Z) (m : Projects.Counts) :
  In k (map fst m) -> exists v, Projects.get_count k m = Some v /\ In (k, v) m.
Proof.
  induction m as [|[k' v'] m IH]; simpl; [contradiction|].
  destruct (Z.eqb_spec k' k) as [-> | Hne].
  - intros _; exists v'; split; [reflexivity | left; reflexivity].
  - intros [E | Hin]; [contradiction|].
    destruct (IH Hin) as (v & Hv & Hm); exists v; split; [exact Hv | right; exact Hm].
Qed.

Lemma get_count_nodup (k : Z) (v : nat) (m : Projects.Counts) :
  NoDup (map fst m) -> In (k, v) m -> Projects.get_count k m = Some v.
Proof.
  induction m as [|[k' v'] m IH]; simpl; [contradiction|].
  intros Hnd Hin; inversion Hnd as [|? ? Hnot Hnd']; subst.
  destruct Hin as [E | Hin].
  - injection E as -> ->; rewrite Z.eqb_refl; reflexivity.
  - destruct (Z.eqb_spec k' k) as [-> | Hne]; [|exact (IH Hnd' Hin)].
    exfalso; apply Hnot; apply (in_map fst) in Hin; exact Hin.
Qed.

Lemma fetchProjects_loop_entries
    (todo : list Projects.Project) (replies : list (Settled (list Js.value)))
    (counts : Projects.Counts) (st : Projects.State) :
  List.length replies = List.length todo ->
  Projects.fetchProjects_members replies
    (snd (Projects.fetchProjects_loop todo counts st))
    (fst (Projects.fetchProjects_loop todo counts st))
  = (st |> Projects.setMemberCounts
             (rev (combine (map Projects.id todo) (map member_count replies)) ++ counts)%list
        |> Projects.setIsLoading false, None).
Proof.
  revert replies counts; induction todo as [|p rest IH]; intros [|r rs] counts Hlen;
    try discriminate.
  - reflexivity.
  - simpl in Hlen; injection Hlen as Hlen.
    cbn [Projects.fetchProjects_loop fst snd Projects.fetchProjects_members].
    unfold Projects.fetchProjects_resume_getProjectMembers.
    rewrite (IH rs _ Hlen); cbn [map combine rev].
    rewrite <- app_assoc; cbn [app].
    unfold member_count, Projects.set_count.
    destruct (Projects.getProjectMembers r); reflexivity.
Qed.

Lemma combine_Forall2 {A B} (P : A -> B -> Prop) (l : list A) (l' : list B) :
  List.length l' = List.length l ->
  (forall a b, In (a, b) (combine l l') -> P a b) -> Forall2 P l l'.
Proof.
  revert l'; induction l as [|a l IH]; intros [|b l'] Hlen HP; try discriminate.
  - constructor.
  - constructor; [apply HP; left; reflexivity|].
    apply IH; [simpl in Hlen; lia|].
    intros a' b' Hin; apply HP; right; exact Hin.
Qed.

Lemma member_count_pos (r : Settled (list Js.value)) : (1 <= member_count r)%nat.
Proof. unfold member_count; destruct (Projects.getProjectMembers r); lia. Qed.

Lemma fetchProjects_result
    (data : list Projects.Project) (replies : list (Settled (list Js.value)))
    (st : Projects.State) :
  List.length replies = List.length data ->
  Projects.fetchProjects (Fulfilled data) replies st
  = (st |> Projects.setIsLoading true
        |> Projects.setProjects data
        |> Projects.setMemberCounts
             (rev (combine (map Projects.id data) (map member_count replies)))
        |> Projects.setIsLoading false, None).
Proof.
  intros Hlen; unfold Projects.fetchProjects, Projects.fetchProjects_resume_getProjects,
    Projects.fetchProjects_start, Projects.getProjects, ret.
  cbv zeta; cbn [fst snd].
  rewrite (fetchProjects_loop_entries data replies [] _ Hlen), app_nil_r; reflexivity.
Qed.

(** X18. A load of the projects page whose list request succeeds always
    completes, whatever the member requests answer: the list shown is the
    one received, no toast is raised, and every project of the list has a
    member count of at least 1.  When the ids are distinct, the count of a
    project is the number of members returned for it plus one, and 1 when
    its member request failed. *)
Theorem fetchProjects_counts
    (data : list Projects.Project) (replies : list (Settled (list Js.value)))
    (st : Projects.State) :
  List.length replies = List.length data ->
  snd (Projects.fetchProjects (Fulfilled data) replies st) = None
  /\ Projects.isLoading (fst (Projects.fetchProjects (Fulfilled data) replies st)) = false
  /\ Projects.projects (fst (Projects.fetchProjects (Fulfilled data) replies st)) = data
  /\ Projects.toasts (fst (Projects.fetchProjects (Fulfilled data) replies st))
     = Projects.toasts st
  /\ (forall p, In p data ->
        exists c,
          Projects.get_count (Projects.id p)
            (Projects.memberCounts (fst (Projects.fetchProjects (Fulfilled data) replies st)))
          = Some c /\ (1 <= c)%nat)
  /\ (NoDup (map Projects.id data) ->
      Forall2
        (fun p r =>
           Projects.get_count (Projects.id p)
             (Projects.memberCounts
                (fst (Projects.fetchProjects (Fulfilled data) replies st)))
           = Some (member_count r))
        data replies).
Proof.
  intros Hlen; rewrite (fetchProjects_result data replies st Hlen).
  cbn [fst snd].
  split; [reflexivity|]. split; [reflexivity|]. split; [reflexivity|].
  split; [reflexivity|].
  set (m := rev (combine (map Projects.id data) (map member_count replies))).
  change (Projects.memberCounts _) with m.
  assert (Hkeys : map fst m = rev (map Projects.id data)).
  { unfold m; rewrite map_rev; f_equal.
    clear m; revert replies Hlen; induction data as [|p data IH]; intros [|r rs] Hlen;
      try discriminate; [reflexivity|].
    simpl; f_equal; apply IH; simpl in Hlen; lia. }
  split.
  - intros p Hp.
    assert (Hin : In (Projects.id p) (map fst m)).
    { rewrite Hkeys, <- in_rev; apply in_map; exact Hp. }
    destruct (get_count_keys _ _ Hin) as (v & Hv & Hm).
    exists v; split; [exact Hv|].
    unfold m in Hm; apply in_rev in Hm; apply in_combine_r in Hm.
    apply in_map_iff in Hm; destruct Hm as (r & <- & _); apply member_count_pos.
  - intros Hnd.
    assert (Hnd' : NoDup (map fst m)) by (rewrite Hkeys; apply NoDup_rev; exact Hnd).
    apply combine_Forall2; [exact Hlen|].
    intros p r Hin; apply get_count_nodup; [exact Hnd'|].
    unfold m; rewrite <- in_rev.
    clear -Hin Hlen; revert replies Hlen Hin.
    induction data as [|q data IH]; intros [|r' rs] Hlen Hin; try contradiction.
    simpl in Hin |- *; destruct Hin as [E | Hin].
    + injection E as -> ->; left; reflexivity.
    + right; apply IH; [simpl in Hlen; lia | exact Hin].
Qed.

Lemma fetchProjects_counts_witness :
  Forall2
    (fun p r =>
       Projects.get_count (Projects.id p)
         (Projects.memberCounts
            (fst (Projects.fetchProjects (Fulfilled [project_1; project_2])
                    [Fulfilled [Js.str "ann"; Js.str "bob"]; Rejected unreachable]
                    Projects.initial_state)))
       = Some (member_count r))
    [project_1; project_2]
    [Fulfilled [Js.str "ann"; Js.str "bob"]; Rejected unreachable].
Proof.
  apply (fetchProjects_counts [project_1; project_2]
           [Fulfilled [Js.str "ann"; Js.str "bob"]; Rejected unreachable]
           Projects.initial_state eq_refl).
  repeat constructor; simpl; intuition discriminate.
Defined.

(** X19. What a project card says about members.  While no count is stored
    for a project, as during a load, its card reads "1 members".  After a
    completed load every project of the list has a stored count c of at
    least 1 and its card reads c followed by " member" when c is 1 and by
    " members" otherwise. *)
Theorem memberLabel_after_load
    (data : list Projects.Project) (replies : list (Settled (list Js.value)))
    (st : Projects.State) :
  List.length replies = List.length data ->
  (forall p st0, Projects.get_count (Projects.id p) (Projects.memberCounts st0) = None ->
                 Projects.memberLabel p st0 = "1 members")
  /\ (forall p, In p data ->
        exists c,
          (1 <= c)%nat
          /\ Projects.get_count (Projects.id p)
               (Projects.memberCounts
                  (fst (Projects.fetchProjects (Fulfilled data) replies st)))
             = Some c
          /\ Projects.memberLabel p (fst (Projects.fetchProjects (Fulfilled data) replies st))
             = Js.Z_to_string (Z.of_nat c) ++ " member"
               ++ (if (c =? 1)%nat then "" else "s")).
Proof.
  intros Hlen; split.
  - intros p st0 H; unfold Projects.memberLabel; rewrite H; reflexivity.
  - intros p Hp.
    rewrite (fetchProjects_result data replies st Hlen); cbn [fst].
    set (m := rev (combine (map Projects.id data) (map member_count replies))).
    assert (Hin : In (Projects.id p) (map fst m)).
    { unfold m; rewrite map_rev, <- in_rev.
      clear -Hp Hlen; revert replies Hlen; induction data as [|q data IH];
        intros [|r rs] Hlen; try discriminate; [contradiction|].
      simpl in Hp |- *; destruct Hp as [-> | Hp]; [left; reflexivity|].
      right; apply IH; [exact Hp | simpl in Hlen; lia]. }
    destruct (get_count_keys _ _ Hin) as (c & Hc & Hm).
    assert (Hpos : (1 <= c)%nat).
    { unfold m in Hm; apply in_rev in Hm; apply in_combine_r in Hm.
      apply in_map_iff in Hm; destruct Hm as (r & <- & _); apply member_count_pos. }
    exists c; split; [exact Hpos|].
    unfold Projects.memberLabel; cbn [Projects.memberCounts Projects.setIsLoading
      Projects.setMemberCounts Projects.setProjects].
    fold m; rewrite Hc; split; [reflexivity|].
    unfold Js.or; cbn [Js.truthy Js.seq Js.to_string].
    assert (Hz : (Z.of_nat c =? 0)%Z = false) by (apply Z.eqb_neq; lia).
    rewrite Hz; cbn [negb].
    destruct (Nat.eqb_spec c 1) as [-> | Hne]; [reflexivity|].
    assert (H1 : (Z.of_nat c =? 1)%Z = false) by (apply Z.eqb_neq; lia).
    rewrite H1; reflexivity.
Qed.

Lemma memberLabel_after_load_witness :
  exists c,
    (1 <= c)%nat
    /\ Projects.memberLabel project_1
         (fst (Projects.fetchProjects (Fulfilled [project_1; project_2])
                 [Fulfilled [Js.str "ann"; Js.str "bob"]; Rejected unreachable]
                 Projects.initial_state))
       = Js.Z_to_string (Z.of_nat c) ++ " member" ++ (if (c =? 1)%nat then "" else "s").
Proof.
  destruct (proj2 (memberLabel_after_load [project_1; project_2]
                     [Fulfilled [Js.str "ann"; Js.str "bob"]; Rejected unreachable]
                     Projects.initial_state eq_refl) project_1 (or_introl eq_refl))
    as (c & Hc & _ & Hl).
  exists c; split; [exact Hc | exact Hl].
Defined.

(** X20. On the projects page an edit is never sent to the server.  Opening
    a project for editing and submitting the form, whatever was typed into it
    as long as the title is not blank, issues no request: the toast "Update
    functionality coming soon" is raised, the form is closed and reset, and
    the list is left as it was. *)
Theorem edit_submit_sends_nothing
    (p : Projects.Project) (form : Projects.Form) (st : Projects.State) :
  Js.trim (Projects.form_title form) <> "" ->
  Projects.handleSubmit_start (Projects.setFormData form (Projects.handleEdit p st))
  = (st |> Projects.toast (toast_error "Update functionality coming soon")
        |> Projects.setIsModalOpen false
        |> Projects.setFormData Projects.empty_form
        |> Projects.setIsEditing false
        |> Projects.setEditingProject None, None).
Proof.
  intros Ht; unfold Projects.handleSubmit_start.
  cbn [Projects.formData Projects.setFormData Projects.isEditing Projects.editingProject
       Projects.handleEdit Projects.setIsModalOpen Projects.setIsEditing
       Projects.setEditingProject].
  rewrite (proj2 (truthy_str _) Ht); reflexivity.
Qed.

Lemma edit_submit_sends_nothing_witness :
  snd (Projects.handleSubmit_start
         (Projects.setFormData
            {| Projects.form_title := "Compiler v2"; Projects.form_description := "new" |}
            (Projects.handleEdit project_1 Projects.initial_state)))
  = None.
Proof.
  rewrite (edit_submit_sends_nothing project_1
             {| Projects.form_title := "Compiler v2"; Projects.form_description := "new" |}
             Projects.initial_state); [reflexivity|].
  vm_compute; discriminate.
Defined.

(** X21. On the projects page every failed request of a search is reported.
    A query shorter than two characters once trimmed reloads the whole list
    and switches the searching flag off at once; when that reload fails, the
    toast "Failed to load projects" is raised.  When the request of a longer
    query fails, the toast "Search failed" is raised.  In both cases the
    list is left as it was. *)
Theorem projects_search_failures (query : string) (e : AxiosError) (st : Projects.State) :
  ((String.length (Js.trim query) < 2)%nat ->
   snd (Projects.handleSearch_start query st) = Projects.fetchProjects_await_getProjects
   /\ Projects.isSearching (fst (Projects.handleSearch_start query st)) = false
   /\ forall st1,
        fst (Projects.fetchProjects_resume_getProjects (Rejected e) st1)
        = (st1 |> Projects.toast (toast_error "Failed to load projects")
               |> Projects.setIsLoading false)
        /\ snd (Projects.fetchProjects_resume_getProjects (Rejected e) st1) = None)
  /\ ((2 <= String.length (Js.trim query))%nat ->
      snd (Projects.handleSearch_start query st)
      = Projects.handleSearch_await_searchProjects query
      /\ forall st1,
           Projects.handleSearch_resume_searchProjects (Rejected e) st1
           = (st1 |> Projects.toast (toast_error "Search failed")
                  |> Projects.setIsSearching false)).
Proof.
  unfold Projects.handleSearch_start; split; intros Hq.
  - apply Nat.ltb_lt in Hq; rewrite Hq; split; [reflexivity|]; split; [reflexivity|].
    intros st1; unfold Projects.fetchProjects_resume_getProjects; simpl.
    destruct (api_catch_throws (A := list Projects.Project) "Failed to fetch projects" e)
      as [x Hx]; rewrite Hx; split; reflexivity.
  - apply Nat.ltb_ge in Hq; rewrite Hq; split; [reflexivity|].
    intros st1; unfold Projects.handleSearch_resume_searchProjects; simpl.
    destruct (api_catch_throws (A := list Projects.Project) "Failed to search projects" e)
      as [x Hx]; rewrite Hx; reflexivity.
Qed.

Lemma projects_search_failures_witness :
  snd (Projects.handleSearch_start "a" Projects.initial_state)
  = Projects.fetchProjects_await_getProjects
  /\ Projects.toasts
       (fst (Projects.fetchProjects_resume_getProjects (Rejected unreachable)
               (fst (Projects.handleSearch_start "a" Projects.initial_state))))
     = [toast_error "Failed to load projects"].
Proof.
  destruct (proj1 (projects_search_failures "a" unreachable Projects.initial_state))
    as (H1 & _ & H3); [simpl; lia|].
  split; [exact H1|].
  rewrite (proj1 (H3 _)); reflexivity.
Defined.

(** ** The tasks page *)

Lemma filter_split_length {A} (p q : A -> bool) (l : list A) :
  (forall x, p x = true -> q x = true -> False) ->
  (List.length (filter p l) + List.length (filter q l)
   = List.length (filter (fun x => p x || q x) l))%nat.
Proof.
  intros Hd; induction l as [|x l IH]; simpl; [reflexivity|].
  destruct (p x) eqn:Ep, (q x) eqn:Eq; simpl; try lia.
  exfalso; exact (Hd x Ep Eq).
Qed.

(** X22. The status filter of the tasks page.  Under "All" every task is
    shown; under any other filter exactly the tasks with that status are
    shown, in their order.  The three status buttons together show every
    task whose status is pending, in_progress or completed exactly once, and
    a task with any other status is shown under "All" only. *)
Theorem filteredTasks_by_status (tasks : list Tasks.Task) :
  Tasks.filteredTasks "all" tasks = tasks
  /\ (forall f, f <> "all" ->
        Tasks.filteredTasks f tasks
        = filter (fun task => String.eqb (Tasks.status task) f) tasks)
  /\ (List.length (Tasks.filteredTasks "pending" tasks)
      + List.length (Tasks.filteredTasks "in_progress" tasks)
      + List.length (Tasks.filteredTasks "completed" tasks)
      = List.length (filter offered_status tasks))%nat
  /\ (forall task f, offered_status task = false ->
        In f ["pending"; "in_progress"; "completed"] ->
        ~ In task (Tasks.filteredTasks f tasks)).
Proof.
  unfold Tasks.filteredTasks; split; [|split; [|split]].
  - simpl; induction tasks as [|t tasks IH]; simpl; [reflexivity | f_equal; exact IH].
  - intros f Hf.
    destruct (String.eqb_spec f "all"); [contradiction | reflexivity].
  - simpl.
    rewrite (filter_split_length
               (fun task => String.eqb (Tasks.status task) "pending")
               (fun task => String.eqb (Tasks.status task) "in_progress")).
    + rewrite (filter_split_length
                 (fun task => String.eqb (Tasks.status task) "pending"
                              || String.eqb (Tasks.status task) "in_progress")
                 (fun task => String.eqb (Tasks.status task) "completed")).
      * reflexivity.
      * intros x H1 H2; apply String.eqb_eq in H2; rewrite H2 in H1; discriminate.
    + intros x H1 H2; apply String.eqb_eq in H1; rewrite H1 in H2; discriminate.
  - intros task f Hoff Hf Hin; apply filter_In in Hin; destruct Hin as [_ H].
    unfold offered_status in Hoff.
    destruct Hf as [<- | [<- | [<- | []]]]; simpl in H; rewrite H in Hoff;
      simpl in Hoff; try discriminate; rewrite ?orb_true_r in Hoff; discriminate.
Qed.

Lemma filteredTasks_by_status_witness :
  Tasks.filteredTasks "pending" [task_1; task_2]
  = filter (fun task => String.eqb (Tasks.status task) "pending") [task_1; task_2]
  /\ ~ In task_2 (Tasks.filteredTasks "completed" [task_1; task_2]).
Proof.
  destruct (filteredTasks_by_status [task_1; task_2]) as (_ & H2 & _ & H4).
  split.
  - apply H2; discriminate.
  - apply H4; [reflexivity | simpl; tauto].
Defined.

(** ** The summary request *)

(** X23. The text sent for summarization is never empty: it is the note's
    content when there is one, else its summary when there is one, else the
    sentence "Summarize the document: " followed by the title. *)
Theorem summary_request_text (note : Note) (h : Hub) :
  exists text,
    snd (handleGenerateSummary_start note h) = handleGenerateSummary_await note text
    /\ Js.truthy text = true
    /\ (Js.truthy (note_content note) = true -> text = note_content note)
    /\ (Js.truthy (note_content note) = false ->
        Js.truthy (note_summary note) = true -> text = note_summary note)
    /\ (Js.truthy (note_content note) = false ->
        Js.truthy (note_summary note) = false ->
        text = Js.str ("Summarize the document: " ++ Js.to_string (note_title note))).
Proof.
  eexists; split; [reflexivity|]; unfold Js.or.
  destruct (Js.truthy (note_content note)) eqn:Ec.
  - rewrite Ec; repeat split; try discriminate; assumption.
  - destruct (Js.truthy (note_summary note)) eqn:Es.
    + rewrite Es; repeat split; try discriminate; assumption.
    + repeat split; discriminate.
Qed.

(** * The summary session *)

Lemma In_remove_nth {A} (k : nat) (l : list A) (x : A) :
  In x (remove_nth k l) -> In x l.
Proof.
  revert k; induction l as [|y l IH]; intros [|k]; simpl; auto.
  intros [H | H]; [left; exact H | right; exact (IH k H)].
Qed.

(** The continuations of the load, search and submit handlers leave the
    summary session alone and never start a summary request. *)
Lemma resume_other_session
    (now : string) (t : Task) (r : Reply) (h h' : Hub) (next : option Task) :
  is_summary_task t = false ->
  resume now t r h = Some (h', next) ->
  summary h' = summary h /\ summaryError h' = summaryError h
  /\ forall t', next = Some t' -> is_summary_task t' = false.
Proof.
  intros Ht; destruct t, r; simpl in Ht |- *; try discriminate.
  - intros E; injection E as <- <-; unfold fetchNotes_resume.
    destruct (bind (getNotes r) _); repeat split; discriminate.
  - intros E; injection E as <- <-; unfold handleSearch_resume_getNotes.
    destruct (bind (getNotes r) _); repeat split; discriminate.
  - intros E; injection E as <- <-; unfold handleSearch_resume_searchResources.
    destruct (bind (searchResources r) _); repeat split; discriminate.
  - intros E; injection E as E; revert E; unfold handleSubmit_resume_uploadFile.
    destruct (bind (uploadFile r) _) as [e | [response n]];
      intros E; injection E as <- <-; repeat split; try discriminate.
    intros t' E; injection E as <-; reflexivity.
  - intros E; injection E as <- <-; unfold handleSubmit_resume_getNotes.
    destruct (bind (getNotes r) _); repeat split; discriminate.
Qed.

Lemma no_summary_in_flight (s : System) (note : Note) (text : Js.value) :
  busy_inv s -> isGeneratingSummary (hub s) = false ->
  ~ In (handleGenerateSummary_await note text) (inflight s).
Proof.
  intros [I _] Hg Hin; rewrite Hg in I; unfold count_summary in I.
  assert (H : (0 < List.length (filter is_summary_task (inflight s)))%nat).
  { apply filter_count_pos; eexists; split; [exact Hin | reflexivity]. }
  lia.
Qed.

Lemma session_inv_step (ev : Event) (s s' : System) :
  session_inv s -> enabled ev s = true -> step ev s = Some s' -> session_inv s'.
Proof.
  intros [Ib Ic] Hen Hstep.
  split; [exact (busy_inv_step ev s s' Ib Hen Hstep)|].
  pose proof (busy_inv_step ev s s' Ib Hen Hstep) as Ib'.
  intros note text Hin; unfold session_empty in *.
  destruct ev; simpl in Hstep.
  - (* Mount *)
    injection Hstep as <-; simpl in Hin |- *.
    apply in_app_or in Hin; destruct Hin as [Hin | [E | []]];
      [exact (Ic _ _ Hin) | discriminate].
  - (* Search *)
    injection Hstep as <-; revert Hin; unfold spawn, handleSearch_start.
    destruct (String.length (Js.trim query) <? 2)%nat; simpl; intros Hin;
      (apply in_app_or in Hin; destruct Hin as [Hin | [E | []]];
       [exact (Ic _ _ Hin) | discriminate]).
  - (* GenerateSummary *)
    injection Hstep as <-; split; reflexivity.
  - (* CloseSummary *)
    injection Hstep as <-; split; reflexivity.
  - (* ViewContent *)
    injection Hstep as <-; exact (Ic _ _ Hin).
  - (* CloseDetail *)
    injection Hstep as <-; exact (Ic _ _ Hin).
  - (* OpenUploadModal *)
    injection Hstep as <-; exact (Ic _ _ Hin).
  - (* CloseUploadModal *)
    injection Hstep as <-; exact (Ic _ _ Hin).
  - (* EditDraft *)
    injection Hstep as <-; exact (Ic _ _ Hin).
  - (* SelectFile *)
    injection Hstep as <-; simpl in Hin |- *; unfold handleFileUpload.
    destruct (10 * 1024 * 1024 <? file_size file)%Z; exact (Ic _ _ Hin).
  - (* Submit *)
    destruct (handleSubmit_start_outcome s) as (s1 & Hs & _ & _ & Hcase).
    simpl in Hs; rewrite Hs in Hstep; injection Hstep as <-.
    assert (Hin0 : In (handleGenerateSummary_await note text) (inflight s)).
    { destruct Hcase as [(Hfl & _) | (Hfl & _)]; rewrite Hfl in Hin;
        [exact Hin|].
      apply in_app_or in Hin; destruct Hin as [Hin | [E | []]];
        [exact Hin | discriminate]. }
    injection Hs as Hs; rewrite <- Hs; unfold spawn_opt, handleSubmit_start; simpl.
    repeat match goal with
           | |- context [if ?c then _ else _] => destruct c
           end; exact (Ic _ _ Hin0).
  - (* Settle *)
    destruct (nth_error (inflight s) k) as [t|] eqn:Hk; [|discriminate].
    destruct (resume now t r (hub s)) as [[h' next]|] eqn:Hr; [|discriminate].
    injection Hstep as <-.
    destruct (is_summary_task t) eqn:Ht.
    + exfalso.
      destruct t; try discriminate; destruct r as [rn | rs | ru]; try discriminate.
      simpl in Hr; injection Hr as <- <-.
      apply (no_summary_in_flight _ note text Ib'); [|exact Hin].
      unfold spawn_opt; simpl; unfold handleGenerateSummary_resume.
      destruct (summarizeText rs); reflexivity.
    + destruct (resume_other_session now t r (hub s) h' next Ht Hr) as (E1 & E2 & Hn).
      unfold spawn_opt in Hin |- *; cbn [hub inflight fst snd] in Hin |- *.
      rewrite E1, E2; apply (Ic note text).
      destruct next as [t'|].
      * apply in_app_or in Hin; destruct Hin as [Hin | [E | []]].
        -- exact (In_remove_nth _ _ _ Hin).
        -- specialize (Hn _ eq_refl); rewrite E in Hn; discriminate.
      * exact (In_remove_nth _ _ _ Hin).
Qed.

Lemma session_inv_initial : session_inv initial.
Proof. split; [exact busy_inv_initial | intros note text []]. Qed.

Lemma session_inv_run (evs : list Event) (s s' : System) :
  session_inv s -> run_enabled evs s = Some s' -> session_inv s'.
Proof.
  revert s; induction evs as [|ev evs IH]; simpl; intros s I E.
  - injection E as <-; exact I.
  - destruct (enabled ev s) eqn:Hen; [|discriminate].
    destruct (step ev s) as [s1|] eqn:Hs; [|discriminate].
    exact (IH s1 (session_inv_step ev s s1 I Hen Hs) E).
Qed.

(** C2, as the code has it.  The component keeps one summary session for the
    whole page and compares no identity when a response arrives; what it has
    instead is the AI Summary button being disabled while a summary is
    generated.  In every run the page lets through: at most one summary
    request is in flight; while one is in flight the session holds no text
    and no error, so nothing of an earlier request can be shown; and the
    response that arrives answers that one request and is committed whatever
    note is selected by then: the session becomes its text, or the fixed
    error text, the selected note stays as it is, and the modal, when it is
    rendered, shows that outcome under the title of the selected note. *)
Theorem summary_session_latest_request (evs : list Event) (s : System) :
  run_enabled evs initial = Some s ->
  (count_summary (inflight s) <= 1)%nat
  /\ (forall note text,
        In (handleGenerateSummary_await note text) (inflight s) ->
        isGeneratingSummary (hub s) = true /\ session_empty (hub s))
  /\ (forall k now r s',
        step (Settle k now (summary_reply r)) s = Some s' ->
        exists note text,
          nth_error (inflight s) k = Some (handleGenerateSummary_await note text)
          /\ count_summary (inflight s') = 0%nat
          /\ selectedNote (hub s') = selectedNote (hub s)
          /\ isSummaryModalOpen (hub s') = isSummaryModalOpen (hub s)
          /\ isGeneratingSummary (hub s') = false
          /\ match r with
             | Fulfilled result =>
                 summary (hub s') = result /\ summaryError (hub s') = None
             | Rejected _ =>
                 summary (hub s') = ""
                 /\ summaryError (hub s') = Some "Failed to get summary. Please try again."
             end
          /\ forall n, selectedNote (hub s) = Some n ->
                       isSummaryModalOpen (hub s) = true ->
                       summaryModal (hub s') = Some (note_title n, outcome_body r)).
Proof.
  intros Hrun.
  destruct (session_inv_run evs initial s session_inv_initial Hrun) as [Ib Ic].
  assert (Hgen : forall note text,
             In (handleGenerateSummary_await note text) (inflight s) ->
             isGeneratingSummary (hub s) = true).
  { intros note text Hin.
    destruct (isGeneratingSummary (hub s)) eqn:Hg; [reflexivity|].
    exfalso; exact (no_summary_in_flight s note text Ib Hg Hin). }
  split; [|split].
  - destruct Ib as [I _]; rewrite I; destruct (isGeneratingSummary (hub s)); lia.
  - intros note text Hin; split; [exact (Hgen _ _ Hin) | exact (Ic _ _ Hin)].
  - intros k now r s' Hstep; simpl in Hstep.
    destruct (nth_error (inflight s) k) as [t|] eqn:Hk; [|discriminate].
    destruct t; simpl in Hstep; try discriminate.
    injection Hstep as <-.
    pose proof (nth_error_In _ _ Hk) as Hin.
    destruct (Ic _ _ Hin) as [Es Ee].
    pose proof (filter_count_remove_true is_summary_task k _ _ Hk eq_refl) as Hc.
    destruct Ib as [I _]; unfold count_summary in I |- *.
    rewrite (Hgen _ _ Hin) in I.
    exists note, text; split; [reflexivity|].
    split; [unfold spawn_opt; cbn [inflight snd]; lia|].
    unfold spawn_opt; cbn [hub fst]; unfold handleGenerateSummary_resume.
    destruct r as [result | e].
    + simpl summarizeText; cbv iota.
      split; [reflexivity|]. split; [reflexivity|]. split; [reflexivity|].
      split; [split; [reflexivity | exact Ee]|].
      intros n Hn Hopen; unfold summaryModal; simpl.
      rewrite Hn, Hopen, Ee; reflexivity.
    + rewrite summarizeText_rejected; cbv iota.
      split; [reflexivity|]. split; [reflexivity|]. split; [reflexivity|].
      split; [split; [exact Es | reflexivity]|].
      intros n Hn Hopen; unfold summaryModal; simpl.
      rewrite Hn, Hopen; reflexivity.
Qed.

Lemma summary_session_latest_request_witness :
  run_enabled [Mount; GenerateSummary note_A] initial = Some generating_A
  /\ exists s',
       step (Settle 1 "2025-01-03" (summary_reply (Fulfilled "Summary of A")))
         generating_A = Some s'
       /\ nth_error (inflight generating_A) 1
          = Some (handleGenerateSummary_await note_A (Js.str "text of A"))
       /\ summary (hub s') = "Summary of A"
       /\ summaryModal (hub s') = Some (Js.str "A", summary_text "Summary of A").
Proof.
  assert (Hrun : run_enabled [Mount; GenerateSummary note_A] initial = Some generating_A)
    by (vm_compute; reflexivity).
  split; [exact Hrun|].
  destruct (summary_session_latest_request _ _ Hrun) as (_ & _ & Hsettle).
  assert (Hstep : exists s',
             step (Settle 1 "2025-01-03" (summary_reply (Fulfilled "Summary of A")))
               generating_A = Some s') by (eexists; vm_compute; reflexivity).
  destruct Hstep as [s' Hstep]; exists s'; split; [exact Hstep|].
  destruct (Hsettle _ _ _ _ Hstep) as (note & text & Hk & _ & _ & _ & _ & [Hs _] & Hm).
  assert (Hk' : nth_error (inflight generating_A) 1
                = Some (handleGenerateSummary_await note_A (Js.str "text of A")))
    by (vm_compute; reflexivity).
  split; [exact Hk'|]. split; [exact Hs|].
  apply (Hm note_A); vm_compute; reflexivity.
Defined.

(** C2 fails in a run the page lets through: A's summary is requested, "View
    Content" is activated on B's card while it is generated, and A's response
    arrives.  The summary modal then shows A's summary under B's title. *)
Lemma summary_stale_counterexample :
  run_enabled [GenerateSummary note_A; ViewContent note_B] initial = Some viewing_B
  /\ nth_error (inflight viewing_B) 0
     = Some (handleGenerateSummary_await note_A (Js.str "text of A"))
  /\ run_enabled [GenerateSummary note_A; ViewContent note_B;
                  Settle 0 "2025-01-03" (summary_reply (Fulfilled "Summary of A"))]
       initial
     = Some stale_A_under_B
  /\ selectedNote (hub stale_A_under_B) = Some note_B
  /\ summaryModal (hub stale_A_under_B)
     = Some (Js.str "B", summary_text "Summary of A")
  /\ shownFor (hub stale_A_under_B) = Some (note_id note_A)
  /\ note_id note_A <> note_id note_B.
Proof.
  split; [vm_compute; reflexivity|].
  split; [vm_compute; reflexivity|].
  split; [vm_compute; reflexivity|].
  split; [vm_compute; reflexivity|].
  split; [vm_compute; reflexivity|].
  split; [vm_compute; reflexivity|].
  vm_compute; discriminate.
Qed.
